(** * A shallow embedding of mplsel/linesel.py

    [SnapshotBuffer] and [AxesLineSelector] from [src/mplsel/linesel.py],
    over a small model of the matplotlib objects they touch:
    - a [Line2D] is an object reference ([LineId]) into a heap of line
      objects holding x/y data and the private style fields ([_linewidth],
      [_color], ...), as a total map from field name to value;
    - an [Axes] ([AxId]) holds its list [ax.lines] and whether a legend is
      attached and visible;
    - the effects the module issues towards matplotlib and stdout (redraw
      requests, legend regeneration, printed notices) are appended to a log;
    - which [set_<name>]/[get_<name>] methods [Line2D] has is fixed, while
      what an existing one does with its argument is a parameter
      ([Line2DMethods]), so the results about them hold for matplotlib's
      own setters and getters.
    Python exceptions are an [exn] outcome; the state reached when the
    exception is raised is kept, so partial mutations stay visible. *)

From Stdlib Require Import String ZArith Bool Lia List Permutation.
Import ListNotations.
Open Scope list_scope.
Set Warnings "-register-all".

(** ** Python values and exceptions *)

Definition LineId := nat.
Definition AxId := nat.

(** The values a caller can hand to [setattr_selection]: the branches of
    the code distinguish tuples, callables and anything else. A callable
    [fn(line, i)] is modelled as a pure function of the line reference and
    the index. *)
Inductive Value : Type :=
| VNone
| VBool (b : bool)
| VNum (z : Z)
| VStr (s : string)
| VTuple (vs : list Value)
| VList (vs : list Value)
| VFun (f : LineId -> nat -> Value).

Inductive exn : Type :=
| IndexError       (* list index out of range, pop from empty list/deque *)
| ValueError       (* raise ValueError(...) *)
| AssertionError   (* a failing assert *)
| AttributeError.  (* getattr of a method the object does not have *)

Inductive outcome (A : Type) : Type :=
| Ok (a : A)
| Raise (e : exn).
Arguments Ok {A} a.
Arguments Raise {A} e.

(** ** Python list helpers *)

(** [ls[i]] with Python's negative indices; [None] is an [IndexError]. *)
Definition py_index {A} (ls : list A) (i : Z) : option A :=
  let n := Z.of_nat (length ls) in
  if ((0 <=? i) && (i <? n))%Z then nth_error ls (Z.to_nat i)
  else if ((- n <=? i) && (i <? 0))%Z then nth_error ls (Z.to_nat (n + i))
  else None.

(** [ls[i] = v]; [None] is an [IndexError]. *)
Fixpoint set_nth {A} (ls : list A) (k : nat) (v : A) : list A :=
  match ls, k with
  | [], _ => []
  | _ :: r, O => v :: r
  | x :: r, S k' => x :: set_nth r k' v
  end.

Definition py_setitem {A} (ls : list A) (i : Z) (v : A) : option (list A) :=
  let n := Z.of_nat (length ls) in
  if ((0 <=? i) && (i <? n))%Z then Some (set_nth ls (Z.to_nat i) v)
  else if ((- n <=? i) && (i <? 0))%Z then Some (set_nth ls (Z.to_nat (n + i)) v)
  else None.

(** [x in ls] for object references (identity). *)
Definition mem (x : LineId) (ls : list LineId) : bool := existsb (Nat.eqb x) ls.

(** [ls.remove(x)]: drops the first occurrence. *)
Fixpoint remove_first (x : LineId) (ls : list LineId) : list LineId :=
  match ls with
  | [] => []
  | y :: r => if Nat.eqb x y then r else y :: remove_first x r
  end.

(** [enumerate(ls)] *)
Fixpoint enumerate_from {A} (i : nat) (ls : list A) : list (nat * A) :=
  match ls with
  | [] => []
  | x :: r => (i, x) :: enumerate_from (S i) r
  end.
Definition enumerate {A} (ls : list A) := enumerate_from 0 ls.

(** ** SnapshotBuffer *)

(** [SnapshotBuffer(max_len)]: a [deque(maxlen=max_len)] of copies. The
    deque is listed oldest first. *)
Record SnapshotBuffer (T : Type) : Type := mkSnapshotBuffer {
  max_len : nat;
  item_snapshots : list T
}.
Arguments mkSnapshotBuffer {T} max_len item_snapshots.
Arguments max_len {T} _.
Arguments item_snapshots {T} _.

Definition SnapshotBuffer_init {T} (max_len : nat) : SnapshotBuffer T :=
  mkSnapshotBuffer max_len [].

(** [deque.append] on a bounded deque: append on the right, then drop the
    leftmost item when the length exceeds [maxlen]. *)
Definition deque_append {T} (maxlen : nat) (d : list T) (x : T) : list T :=
  let d' := d ++ [x] in
  if maxlen <? length d' then tl d' else d'.

(** [snapshot(items)]: [self.item_snapshots.append(items.copy())]. The
    items snapshotted here are lists of references, which are values in
    this model: the stored list is the shallow copy. *)
Definition snapshot {T} (b : SnapshotBuffer T) (items : T) : SnapshotBuffer T :=
  mkSnapshotBuffer (max_len b) (deque_append (max_len b) (item_snapshots b) items).

(** [rewind()]: [self.item_snapshots.pop()], which raises [IndexError] on an
    empty deque. *)
Definition rewind {T} (b : SnapshotBuffer T) : outcome T * SnapshotBuffer T :=
  match rev (item_snapshots b) with
  | [] => (Raise IndexError, b)
  | x :: r => (Ok x, mkSnapshotBuffer (max_len b) (rev r))
  end.

(** [__len__] *)
Definition buffer_len {T} (b : SnapshotBuffer T) : nat := length (item_snapshots b).

(** ** The matplotlib objects the module works on *)

(** A [Line2D]: its data and its private style fields, read and written
    by name ([getattr(ln, '_color')]; the field [_name] is [props o "name"]).
    Every field is initialised by matplotlib, so the map is total. *)
Record Line2D : Type := mkLine2D {
  xdata : list Z;
  ydata : list Z;
  props : string -> Value
}.

(** An [Axes]: [ax.lines] and whether [ax.legend_ is not None and
    ax.legend_.get_visible()]. *)
Record Axes : Type := mkAxes {
  ax_line_list : list LineId;
  legend_visible : bool
}.

(** What the module asks of matplotlib and of stdout. *)
Inductive Event : Type :=
| EvRedraw (a : AxId)        (* ax.figure.canvas.draw_idle() *)
| EvLegend (a : AxId)        (* ax.legend() *)
| EvPrint (msg : string) (about : option LineId).  (* print(...) *)

Record World : Type := mkWorld {
  heap : LineId -> Line2D;
  axes : AxId -> Axes;
  next_id : LineId;             (* the next fresh object reference *)
  log : list Event
}.

Definition emit (e : Event) (w : World) : World :=
  mkWorld (heap w) (axes w) (next_id w) (log w ++ [e]).

Definition ax_lines (w : World) (a : AxId) : list LineId := ax_line_list (axes w a).

(** [ax.lines = ls] (or an in-place mutation of [ax.lines] ending in [ls]). *)
Definition set_ax_lines (a : AxId) (ls : list LineId) (w : World) : World :=
  mkWorld (heap w)
    (fun b => if Nat.eqb b a then mkAxes ls (legend_visible (axes w a)) else axes w b)
    (next_id w) (log w).

(** Writing the style field [name] of line [l]. *)
Definition set_line_prop (l : LineId) (name : string) (v : Value) (w : World) : World :=
  mkWorld
    (fun m => if Nat.eqb m l
              then let o := heap w l in
                   mkLine2D (xdata o) (ydata o)
                     (fun n => if String.eqb n name then v else props o n)
              else heap w m)
    (axes w) (next_id w) (log w).

(** Field values of a fresh line made by [ax.plot]; all allow-listed fields
    are overwritten by [paste_selection], so their defaults play no role. *)
Definition plot_default_props : string -> Value := fun _ => VNone.

(** [ax.plot(x, y)[0]]: a fresh [Line2D] appended to [ax.lines]. *)
Definition plot_world (a : AxId) (x y : list Z) (w : World) : LineId * World :=
  let l := next_id w in
  (l, mkWorld (fun m => if Nat.eqb m l then mkLine2D x y plot_default_props else heap w m)
              (fun b => if Nat.eqb b a
                        then mkAxes (ax_lines w a ++ [l]) (legend_visible (axes w a))
                        else axes w b)
              (S l) (log w)).

(** ** The coordinator and its monad *)

Record AxesLineSelector : Type := mkAxesLineSelector {
  ax : AxId;
  line_clipboard : list LineId;
  delete_buffer : SnapshotBuffer (list LineId);
  cid : option nat;
  picker_arg : Value
}.

(** [AxesLineSelector(ax, picker_arg)] *)
Definition AxesLineSelector_init (a : AxId) (picker_arg : Value) : AxesLineSelector :=
  mkAxesLineSelector a [] (SnapshotBuffer_init 25) None picker_arg.

Definition set_line_clipboard (cb : list LineId) (c : AxesLineSelector) :=
  mkAxesLineSelector (ax c) cb (delete_buffer c) (cid c) (picker_arg c).

Definition set_delete_buffer (b : SnapshotBuffer (list LineId)) (c : AxesLineSelector) :=
  mkAxesLineSelector (ax c) (line_clipboard c) b (cid c) (picker_arg c).

(** A method call runs on [self] and the matplotlib world; it returns a
    value or raises, and in both cases leaves a state behind. *)
Definition St : Type := (AxesLineSelector * World)%type.
Definition M (A : Type) : Type := St -> outcome A * St.

Definition ret {A} (a : A) : M A := fun s => (Ok a, s).
Definition bind {A B} (m : M A) (k : A -> M B) : M B :=
  fun s => match m s with
           | (Ok a, s') => k a s'
           | (Raise e, s') => (Raise e, s')
           end.
Definition raise {A} (e : exn) : M A := fun s => (Raise e, s).

Notation "'let*' x ':=' m 'in' k" := (bind m (fun x => k))
  (at level 200, x name, m at level 100, k at level 200).

Definition get_self : M AxesLineSelector := fun s => (Ok (fst s), s).
Definition get_world : M World := fun s => (Ok (snd s), s).
Definition modify_self (f : AxesLineSelector -> AxesLineSelector) : M unit :=
  fun s => (Ok tt, (f (fst s), snd s)).
Definition modify_world (f : World -> World) : M unit :=
  fun s => (Ok tt, (fst s, f (snd s))).

(** [assert cond] *)
Definition py_assert (b : bool) : M unit := if b then ret tt else raise AssertionError.

Definition print (msg : string) (about : option LineId) : M unit :=
  modify_world (emit (EvPrint msg about)).

(** [self.redraw(ax)] *)
Definition redraw (a : AxId) : M unit :=
  let* w := get_world in
  let* _ := (if legend_visible (axes w a) then modify_world (emit (EvLegend a)) else ret tt) in
  modify_world (emit (EvRedraw a)).

(** [self.ax.lines] *)
Definition get_lines : M (list LineId) :=
  let* c := get_self in
  let* w := get_world in
  ret (ax_lines w (ax c)).

Definition set_lines (ls : list LineId) : M unit :=
  let* c := get_self in
  modify_world (set_ax_lines (ax c) ls).

(** [self.delete_buffer.snapshot(self.ax.lines)] *)
Definition snapshot_lines : M unit :=
  let* ls := get_lines in
  modify_self (fun c => set_delete_buffer (snapshot (delete_buffer c) ls) c).

(** ** AxesLineSelector methods *)

(** [LINE_PROPERTIES] (a Python set; its iteration order plays no role
    below since the names are distinct). *)
Definition LINE_PROPERTIES : list string :=
  ["linewidth"; "linestyle"; "alpha"; "color"; "antialiased";
   "dashcapstyle"; "dashjoinstyle"; "dashOffset"; "dashSeq";
   "drawstyle"; "label"; "marker"; "markeredgecolor";
   "markeredgewidth"; "markerfacecolor"; "markerfacecoloralt";
   "markersize"; "markevery"; "solidcapstyle"; "solidjoinstyle";
   "visible"]%string.

Definition is_line_property (attr : string) : bool :=
  existsb (String.eqb attr) LINE_PROPERTIES.

(** [_delete_line(line)] *)
Definition _delete_line (line : LineId) : M unit :=
  let* c := get_self in
  let* ls := get_lines in
  let* _ := (if mem line ls
             then let* _ := set_lines (remove_first line ls) in
                  print "Deleted line" (Some line)
             else print "was not in self.ax.lines. Skipped deletion" (Some line)) in
  redraw (ax c).

(** [while len(self.ax.lines) > 0: ln = self.ax.lines[-1]; self._delete_line(ln)];
    each round removes one line, so [fuel = len(self.ax.lines)] rounds
    run the loop to its end. *)
Fixpoint delete_all_loop (fuel : nat) : M unit :=
  match fuel with
  | O => ret tt
  | S f =>
      let* ls := get_lines in
      match py_index ls (-1) with
      | None => ret tt                 (* len(self.ax.lines) == 0 *)
      | Some ln => let* _ := _delete_line ln in delete_all_loop f
      end
  end.

(** [delete_all_lines()] *)
Definition delete_all_lines : M unit :=
  let* _ := snapshot_lines in
  let* ls := get_lines in
  delete_all_loop (length ls).

(** [while len(self.line_clipboard) > 0: ln = self.line_clipboard.pop(0);
    self._delete_line(ln)]; [fuel = len(self.line_clipboard)]. *)
Fixpoint delete_selection_loop (fuel : nat) : M unit :=
  match fuel with
  | O => ret tt
  | S f =>
      let* c := get_self in
      match line_clipboard c with
      | [] => ret tt
      | ln :: rest =>
          let* _ := modify_self (set_line_clipboard rest) in
          let* _ := _delete_line ln in
          delete_selection_loop f
      end
  end.

(** [delete_selection()] *)
Definition delete_selection : M unit :=
  let* _ := snapshot_lines in
  let* c := get_self in
  delete_selection_loop (length (line_clipboard c)).

(** The loop of [delete_lines_by_inds]: [for i, l in enumerate(self.ax.lines):
    if i not in inds: new_lines.append(l) else: print(...)]. *)
Fixpoint delete_by_inds_loop (inds : list Z) (i : nat) (ls : list LineId) : M (list LineId) :=
  match ls with
  | [] => ret []
  | l :: r =>
      if negb (existsb (Z.eqb (Z.of_nat i)) inds)
      then let* rest := delete_by_inds_loop inds (S i) r in ret (l :: rest)
      else let* _ := print "Deleted line" (Some l) in delete_by_inds_loop inds (S i) r
  end.

(** [delete_lines_by_inds( *inds)] *)
Definition delete_lines_by_inds (inds : list Z) : M unit :=
  if length inds <? 1 then raise ValueError
  else
    let* _ := snapshot_lines in
    let* ls := get_lines in
    let* new_lines := delete_by_inds_loop inds 0 ls in
    let* _ := set_lines new_lines in
    let* c := get_self in
    redraw (ax c).

(** [_delete_callback(event)] for a pick on [artist]. *)
Definition _delete_callback (artist : LineId) : M unit :=
  let* _ := snapshot_lines in
  _delete_line artist.

(** [undo_last_delete()] *)
Definition undo_last_delete : M unit :=
  let* c := get_self in
  if buffer_len (delete_buffer c) =? 0
  then print "No line deletions to undo!" None
  else
    match rewind (delete_buffer c) with
    | (Raise e, _) => raise e
    | (Ok ls, b') =>
        let* _ := modify_self (set_delete_buffer b') in
        let* _ := set_lines ls in
        redraw (ax c)
    end.

(** [_add_line_to_clipboard(line)] *)
Definition _add_line_to_clipboard (line : LineId) : M unit :=
  let* c := get_self in
  if negb (mem line (line_clipboard c))
  then let* _ := modify_self (set_line_clipboard (line_clipboard c ++ [line])) in
       print "Added line to clipboard" (Some line)
  else print "already exists in clipboard. Skipping..." (Some line).

(** [_select_callback(event)] for a pick on [artist]. *)
Definition _select_callback (artist : LineId) : M unit :=
  _add_line_to_clipboard artist.

(** [for ln in lns: self._add_line_to_clipboard(ln)] *)
Fixpoint add_all (lns : list LineId) : M unit :=
  match lns with
  | [] => ret tt
  | ln :: r => let* _ := _add_line_to_clipboard ln in add_all r
  end.

(** [select_all_lines()] *)
Definition select_all_lines : M unit :=
  let* ls := get_lines in
  add_all ls.

(** [select_lines(sel_fn)], [sel_fn] a pure predicate on the line and its
    index. *)
Definition select_lines (sel_fn : LineId -> nat -> bool) : M unit :=
  let* ls := get_lines in
  add_all (map snd (filter (fun p => sel_fn (snd p) (fst p)) (enumerate ls))).

(** [for ind in inds: self._add_line_to_clipboard(self.ax.lines[ind])] *)
Fixpoint select_by_inds_loop (inds : list Z) : M unit :=
  match inds with
  | [] => ret tt
  | ind :: r =>
      let* ls := get_lines in
      match py_index ls ind with
      | None => raise IndexError
      | Some ln => let* _ := _add_line_to_clipboard ln in select_by_inds_loop r
      end
  end.

(** [select_lines_by_inds( *inds)] *)
Definition select_lines_by_inds (inds : list Z) : M unit :=
  if length inds <? 1 then raise ValueError
  else select_by_inds_loop inds.

(** [undo_last_selection()] *)
Definition undo_last_selection : M unit :=
  let* c := get_self in
  let* _ := (if length (line_clipboard c) =? 0
             then print "No line selections to undo!" None
             else ret tt) in
  let* c := get_self in
  match rev (line_clipboard c) with
  | [] => raise IndexError               (* self.line_clipboard.pop() *)
  | ln :: r =>
      let* _ := modify_self (set_line_clipboard (rev r)) in
      print "Removed line from clipboard" (Some ln)
  end.

(** [clear_clipboard()] *)
Definition clear_clipboard : M unit := modify_self (set_line_clipboard []).

(** [set(order) == set(range(n))] for a list of Python ints. *)
Definition set_eq_range (order : list Z) (n : nat) : bool :=
  forallb (fun x => ((0 <=? x) && (x <? Z.of_nat n))%Z) order
  && forallb (fun i => existsb (Z.eqb (Z.of_nat i)) order) (seq 0 n).

(** [for old_ind, new_ind in enumerate(order):
       new_lines[new_ind] = self.ax.lines[old_ind]]
    The right-hand side is evaluated first. [None] is a placeholder of
    [new_lines = [None] * len(self.ax.lines)]. *)
Fixpoint reorder_fill (ls : list LineId) (order : list Z) (old_ind : nat)
    (new_lines : list (option LineId)) : outcome (list (option LineId)) :=
  match order with
  | [] => Ok new_lines
  | new_ind :: r =>
      match py_index ls (Z.of_nat old_ind) with
      | None => Raise IndexError
      | Some v =>
          match py_setitem new_lines new_ind (Some v) with
          | None => Raise IndexError
          | Some new_lines' => reorder_fill ls r (S old_ind) new_lines'
          end
      end
  end.

(** The list stored into [ax.lines]. Once the assertion has passed and the
    loop has run through, [order] has exactly [n] distinct entries, so every
    placeholder has been overwritten and nothing is dropped here. *)
Definition placed (new_lines : list (option LineId)) : list LineId :=
  flat_map (fun o => match o with Some l => [l] | None => [] end) new_lines.

(** [reorder_lines(order)] *)
Definition reorder_lines (order : list Z) : M unit :=
  let* ls := get_lines in
  let* _ := py_assert (set_eq_range order (length ls)) in
  match reorder_fill ls order 0 (repeat None (length ls)) with
  | Raise e => raise e
  | Ok new_lines =>
      let* _ := set_lines (placed new_lines) in
      let* c := get_self in
      redraw (ax c)
  end.

(** ** The accessors of [Line2D] *)

(** The names of [LINE_PROPERTIES] for which matplotlib's [Line2D] has
    both a [set_<name>] and a [get_<name>] method (some of them inherited
    from [Artist]). For [dashcapstyle], [dashjoinstyle], [solidcapstyle]
    and [solidjoinstyle] its methods are [set_dash_capstyle] and so on, and
    it has none for [dashOffset] and [dashSeq]: [getattr(ln, 'set_dashSeq')]
    raises [AttributeError]. *)
Definition LINE2D_ACCESSORS : list string :=
  ["linewidth"; "linestyle"; "alpha"; "color"; "antialiased";
   "drawstyle"; "label"; "marker"; "markeredgecolor";
   "markeredgewidth"; "markerfacecolor"; "markerfacecoloralt";
   "markersize"; "markevery"; "visible"]%string.

Definition has_accessors (attr : string) : bool :=
  existsb (String.eqb attr) LINE2D_ACCESSORS.

(** [getattr(ln, f'set_{attr}')] and [getattr(ln, f'get_{attr}')]: the
    lookup of the bound method. *)
Definition py_getattr_method (attr : string) : M unit :=
  if has_accessors attr then ret tt else raise AttributeError.

(** What an existing accessor does with its argument is matplotlib's own
    code: [set_linewidth] converts with [float()] (a list raises
    [TypeError]), [set_linestyle('dashed')] stores ['--'], [set_label(5)]
    stores ['5'], [set_markevery] stores its argument as it is, and so on.
    The development is parametric in it: [line_set name v fields] is the
    private fields of a line after [ln.set_<name>(v)], or the exception
    that call raises, and [line_get name fields] is [ln.get_<name>()]. Each
    sees only the line it is called on. *)
Class Line2DMethods : Type := {
  line_set : string -> Value -> (string -> Value) -> outcome (string -> Value);
  line_get : string -> (string -> Value) -> Value
}.

(** The fields of line [l] after a setter call produced [ps]. *)
Definition set_line_fields (l : LineId) (ps : string -> Value) (w : World) : World :=
  mkWorld
    (fun m => if Nat.eqb m l then mkLine2D (xdata (heap w l)) (ydata (heap w l)) ps
              else heap w m)
    (axes w) (next_id w) (log w).

Section Accessors.

Context {L : Line2DMethods}.

(** [for ln, val in zip(self.line_clipboard, value):
       setter = getattr(ln, f'set_{attr}'); setter(val)] *)
Fixpoint set_all (attr : string) (pairs : list (LineId * Value)) : M unit :=
  match pairs with
  | [] => ret tt
  | (ln, v) :: r =>
      let* _ := py_getattr_method attr in
      let* w := get_world in
      match line_set attr v (props (heap w ln)) with
      | Raise e => raise e
      | Ok ps =>
          let* _ := modify_world (set_line_fields ln ps) in
          set_all attr r
      end
  end.

(** [setattr_selection(attr, value)] *)
Definition setattr_selection (attr : string) (value : Value) : M unit :=
  let* _ := py_assert (is_line_property attr) in
  let* c := get_self in
  let cb := line_clipboard c in
  let* vals :=
    match value with
    | VTuple vs =>                                   (* isinstance(value, tuple) *)
        let* _ := py_assert (length vs =? length cb) in ret vs
    | VFun f =>                                      (* callable(value) *)
        ret (map (fun p => f (snd p) (fst p)) (enumerate cb))
    | v => ret (repeat v (length cb))
    end in
  let* _ := set_all attr (combine cb vals) in
  redraw (ax c).

(** [for ln in self.line_clipboard:
       getter = getattr(ln, f'get_{attr}'); retval.append(getter())] *)
Fixpoint get_all (attr : string) (lns : list LineId) : M (list Value) :=
  match lns with
  | [] => ret []
  | ln :: r =>
      let* _ := py_getattr_method attr in
      let* w := get_world in
      let v := line_get attr (props (heap w ln)) in
      let* rest := get_all attr r in
      ret (v :: rest)
  end.

(** [getattr_selection(attr)] *)
Definition getattr_selection (attr : string) : M (list Value) :=
  let* _ := py_assert (is_line_property attr) in
  let* c := get_self in
  get_all attr (line_clipboard c).

End Accessors.

(** A [Line2D] whose setters store their argument unchanged in the field
    of that name and whose getters return the field: this is what
    matplotlib's [set_markevery]/[get_markevery],
    [set_antialiased]/[get_antialiased] and [set_visible]/[get_visible]
    do. The examples below run no other accessor through it. *)
Definition raw_line2d : Line2DMethods := {|
  line_set := fun name v ps => Ok (fun n => if String.eqb n name then v else ps n);
  line_get := fun name ps => ps name
|}.

(** [ax.plot(x, y)[0]] *)
Definition plot (a : AxId) (x y : list Z) : M LineId :=
  fun s => let (l, w') := plot_world a x y (snd s) in (Ok l, (fst s, w')).

(** [for line_attr in self.LINE_PROPERTIES:
       setattr(new_l, f'_{line_attr}', getattr(ln, f'_{line_attr}'))] *)
Fixpoint copy_props (ln new_l : LineId) (names : list string) : M unit :=
  match names with
  | [] => ret tt
  | name :: r =>
      let* w := get_world in
      let* _ := modify_world (set_line_prop new_l name (props (heap w ln) name)) in
      copy_props ln new_l r
  end.

(** The loop of [paste_selection], building [new_sel_line_clipboard]. *)
Fixpoint paste_loop (a : AxId) (cb : list LineId) : M (list LineId) :=
  match cb with
  | [] => ret []
  | ln :: r =>
      let* w := get_world in
      let* new_l := plot a (xdata (heap w ln)) (ydata (heap w ln)) in
      let* _ := copy_props ln new_l LINE_PROPERTIES in
      let* rest := paste_loop a r in
      ret (new_l :: rest)
  end.

(** [paste_selection(ax)]: returns the new selector. *)
Definition paste_selection (a : AxId) : M AxesLineSelector :=
  let* c := get_self in
  let* new_cb := paste_loop a (line_clipboard c) in
  let* _ := redraw a in
  ret (set_line_clipboard new_cb (AxesLineSelector_init a (picker_arg c))).

(** ** Observations used in the statements *)

(** The values [setattr_selection] assigns, one per clipboard entry. *)
Definition selection_values (value : Value) (cb : list LineId) : list Value :=
  match value with
  | VTuple vs => vs
  | VFun f => map (fun p => f (snd p) (fst p)) (enumerate cb)
  | v => repeat v (length cb)
  end.

(** The field [ln.set_picker(p)] writes besides [_picker]: [_contains]
    for a callable [p], [pickradius] otherwise. *)
Definition picker_field (p : Value) : string :=
  match p with
  | VFun _ => "contains"
  | _ => "pickradius"
  end.

(** Number of redraw requests ([draw_idle]) in a stretch of the log. *)
Fixpoint redraw_count (evs : list Event) : nat :=
  match evs with
  | [] => 0
  | EvRedraw _ :: r => S (redraw_count r)
  | _ :: r => redraw_count r
  end.

(** The clipboard after [_add_line_to_clipboard(ln)]. *)
Definition clip_add (ln : LineId) (cb : list LineId) : list LineId :=
  if mem ln cb then cb else cb ++ [ln].

(** Every line [ls[ind]] that [select_lines_by_inds] reaches before its
    first out-of-range index is in [cb]. *)
Fixpoint selected_prefix (ls : list LineId) (inds : list Z) (cb : list LineId) : Prop :=
  match inds with
  | [] => True
  | ind :: r =>
      match py_index ls ind with
      | None => True
      | Some ln => In ln cb /\ selected_prefix ls r cb
      end
  end.

(** The series left after removing positions [inds] from [ls]: the entries
    at the positions [0 .. n-1] not listed, in increasing position order. *)
Definition kept_positions (inds : list Z) (ls : list LineId) : list LineId :=
  map (fun k => nth k ls 0)
      (filter (fun k => negb (existsb (Z.eqb (Z.of_nat k)) inds)) (seq 0 (length ls))).

(** ** Concrete selectors and worlds *)

(** Axes [0] holds lines [0; 1; 2] (no legend); line [l] has data
    [[l]], [[1]] and every style field set to [l]. *)
Definition w_three : World :=
  mkWorld (fun l => mkLine2D [Z.of_nat l] [1%Z] (fun _ => VNum (Z.of_nat l)))
          (fun a => if Nat.eqb a 0 then mkAxes [0; 1; 2] false else mkAxes [] false)
          3 [].

(** Axes [0] holds lines [0; 1]. *)
Definition w_two : World :=
  mkWorld (fun l => mkLine2D [Z.of_nat l] [1%Z] (fun _ => VNum (Z.of_nat l)))
          (fun a => if Nat.eqb a 0 then mkAxes [0; 1] false else mkAxes [] false)
          2 [].

Definition sel_empty : AxesLineSelector := AxesLineSelector_init 0 (VBool true).
Definition sel_first : AxesLineSelector := set_line_clipboard [0] sel_empty.
Definition sel_ends : AxesLineSelector := set_line_clipboard [0; 2] sel_empty.
Definition sel_all3 : AxesLineSelector := set_line_clipboard [0; 1; 2] sel_empty.

(** The world after [redraw(a)]. *)
Definition redraw_world (a : AxId) (w : World) : World :=
  if legend_visible (axes w a) then emit (EvRedraw a) (emit (EvLegend a) w)
  else emit (EvRedraw a) w.

(** ** Restoring every snapshot *)

(** [for _ in range(len(self.delete_buffer)):
       self.ax.lines = self.delete_buffer.rewind()] *)
Fixpoint undo_all_loop (n : nat) : M unit :=
  match n with
  | O => ret tt
  | S k =>
      let* c := get_self in
      match rewind (delete_buffer c) with
      | (Raise e, _) => raise e
      | (Ok ls, b') =>
          let* _ := modify_self (set_delete_buffer b') in
          let* _ := set_lines ls in
          undo_all_loop k
      end
  end.

(** [undo_all_delete()] *)
Definition undo_all_delete : M unit :=
  let* c := get_self in
  let* _ := undo_all_loop (buffer_len (delete_buffer c)) in
  let* c := get_self in
  redraw (ax c).

(** ** Interactive modes *)

(** The bound methods registered for ['pick_event']. *)
Inductive PickHandler : Type :=
| SelectHandler    (* self._select_callback *)
| DeleteHandler.   (* self._delete_callback *)

(** The callback registry of [self.fig.canvas]: the registered callbacks
    with their ids, in registration order, and the next id to hand out. *)
Record Canvas : Type := mkCanvas {
  callbacks : list (nat * PickHandler);
  next_cid : nat
}.

(** [canvas.mpl_connect('pick_event', h)]: returns the fresh id. *)
Definition mpl_connect (h : PickHandler) (cv : Canvas) : nat * Canvas :=
  (next_cid cv, mkCanvas (callbacks cv ++ [(next_cid cv, h)]) (S (next_cid cv))).

(** [canvas.mpl_disconnect(cid)] *)
Definition mpl_disconnect (k : nat) (cv : Canvas) : Canvas :=
  mkCanvas (filter (fun p => negb (Nat.eqb (fst p) k)) (callbacks cv)) (next_cid cv).

Definition set_cid (k : option nat) (c : AxesLineSelector) :=
  mkAxesLineSelector (ax c) (line_clipboard c) (delete_buffer c) k (picker_arg c).

(** The interactive methods touch [self], the lines and the canvas; none of
    them raises. *)
Definition IState : Type := (AxesLineSelector * World * Canvas)%type.

(** [_disconnect_current_callback()] *)
Definition _disconnect_current_callback (s : IState) : IState :=
  let '(c, w, cv) := s in
  match cid c with
  | Some k => (set_cid None c, w, mpl_disconnect k cv)
  | None => s
  end.

(** [ln.set_picker(p)] of matplotlib's [Line2D]:
    [if callable(p): self._contains = p
     else: self.pickradius = p
     self._picker = p] *)
Definition set_picker (l : LineId) (p : Value) (w : World) : World :=
  let w1 := match p with
            | VFun _ => set_line_prop l "contains" p w
            | _ => set_line_prop l "pickradius" p w
            end in
  set_line_prop l "picker" p w1.

(** [for ln in self.ax.lines: ln.set_picker(self.picker_arg)] *)
Fixpoint set_pickers (ls : list LineId) (p : Value) (w : World) : World :=
  match ls with
  | [] => w
  | ln :: r => set_pickers r p (set_picker ln p w)
  end.

(** The body shared by [interactive_select] and [interactive_delete]. *)
Definition connect_pick (h : PickHandler) (s : IState) : IState :=
  let '(c, w, cv) := _disconnect_current_callback s in
  let w' := set_pickers (ax_lines w (ax c)) (picker_arg c) w in
  let '(k, cv') := mpl_connect h cv in
  (set_cid (Some k) c, w', cv').

(** [interactive_select()] *)
Definition interactive_select (s : IState) : IState := connect_pick SelectHandler s.

(** [interactive_delete()] *)
Definition interactive_delete (s : IState) : IState := connect_pick DeleteHandler s.

(** [disable_interactive()] *)
Definition disable_interactive (s : IState) : IState := _disconnect_current_callback s.

(** ** Further observations *)

(** The lines [self.ax.lines[ind]] that [select_lines_by_inds] reaches, in
    order, and whether it reaches the end of [inds] without an
    out-of-range index. *)
Fixpoint lines_at (ls : list LineId) (inds : list Z) : list LineId * bool :=
  match inds with
  | [] => ([], true)
  | ind :: r =>
      match py_index ls ind with
      | None => ([], false)
      | Some ln => let (xs, ok) := lines_at ls r in (ln :: xs, ok)
      end
  end.

(** * Properties *)

(** ** SnapshotBuffer *)

Lemma deque_append_below {T} (n : nat) (d : list T) (x : T) :
  length d < n -> deque_append n d x = d ++ [x].
Proof.
  intros H. unfold deque_append.
  rewrite length_app. simpl.
  destruct (Nat.ltb_spec n (length d + 1)); [lia | reflexivity].
Qed.

Lemma deque_append_full {T} (n : nat) (d : list T) (x : T) :
  length d = n -> deque_append n d x = tl (d ++ [x]).
Proof.
  intros H. unfold deque_append.
  rewrite length_app. simpl.
  destruct (Nat.ltb_spec n (length d + 1)); [reflexivity | lia].
Qed.

Lemma rewind_last {T} (n : nat) (s : list T) (x : T) :
  rewind (mkSnapshotBuffer n (s ++ [x])) = (Ok x, mkSnapshotBuffer n s).
Proof.
  unfold rewind. simpl. rewrite rev_unit, rev_involutive. reflexivity.
Qed.

(** A buffer of capacity at least one hands back, on [rewind], the item
    just stored by [snapshot]. *)
Lemma rewind_snapshot {T} (b : SnapshotBuffer T) (x : T) :
  1 <= max_len b ->
  fst (rewind (snapshot b x)) = Ok x.
Proof.
  intros Hn. destruct b as [n s]; simpl in *.
  unfold snapshot, deque_append; simpl.
  destruct (Nat.ltb_spec n (length (s ++ [x]))) as [Hlt | Hge].
  - destruct s as [| y s]; simpl in *.
    + lia.
    + rewrite rewind_last. reflexivity.
  - rewrite rewind_last. reflexivity.
Qed.

(** C5: [snapshot] stores the copy, evicting the oldest entry once the
    buffer holds [max_len] entries; [rewind] pops the most recent entry
    (LIFO) and raises on an empty buffer ([IndexError] from [deque.pop],
    the spec's EmptyBufferError). Three snapshots into a capacity-2 buffer
    rewind as the 3rd, then the 2nd, then fail. *)
Theorem snapshot_buffer_contract :
  (forall T (b : SnapshotBuffer T) (x : T),
      length (item_snapshots b) < max_len b ->
      snapshot b x = mkSnapshotBuffer (max_len b) (item_snapshots b ++ [x])) /\
  (forall T (b : SnapshotBuffer T) (x : T),
      length (item_snapshots b) = max_len b ->
      snapshot b x = mkSnapshotBuffer (max_len b) (tl (item_snapshots b ++ [x]))) /\
  (forall T (n : nat) (s : list T) (x : T),
      rewind (mkSnapshotBuffer n (s ++ [x])) = (Ok x, mkSnapshotBuffer n s)) /\
  (forall T (n : nat),
      rewind (mkSnapshotBuffer (T := T) n []) = (Raise IndexError, mkSnapshotBuffer n [])) /\
  (forall T (s1 s2 s3 : T),
      let b := snapshot (snapshot (snapshot (SnapshotBuffer_init 2) s1) s2) s3 in
      fst (rewind b) = Ok s3 /\
      fst (rewind (snd (rewind b))) = Ok s2 /\
      fst (rewind (snd (rewind (snd (rewind b))))) = Raise IndexError).
Proof.
  split; [| split; [| split; [| split]]].
  - intros T b x H. unfold snapshot. rewrite deque_append_below by exact H. reflexivity.
  - intros T b x H. unfold snapshot. rewrite deque_append_full by exact H. reflexivity.
  - intros T n s x. apply rewind_last.
  - intros T n. reflexivity.
  - intros T s1 s2 s3. simpl. repeat split.
Qed.

(** ** undo_last_selection *)

(** C1: on an empty clipboard [undo_last_selection] prints its notice and
    then still calls [self.line_clipboard.pop()], which raises
    [IndexError]; the clipboard stays empty. *)
Theorem undo_last_selection_empty_raises :
  forall (a : AxId) (b : SnapshotBuffer (list LineId)) (cid0 : option nat) (p : Value)
         (w : World),
  let c := mkAxesLineSelector a [] b cid0 p in
  undo_last_selection (c, w) =
    (Raise IndexError, (c, emit (EvPrint "No line selections to undo!"%string None) w)).
Proof. intros. reflexivity. Qed.

(** ** reorder_lines *)

(** C2: on two series, the order [(1, 0, 1)] covers [{0, 1}] and passes the
    assertion, then fails in the copy loop with [IndexError] (not the
    assertion's error); [(0, 0)] is refused by the assertion; [(1, 0)]
    swaps the two series. *)
Theorem reorder_lines_long_order_raises_IndexError :
  reorder_lines [1; 0; 1]%Z (sel_empty, w_two) = (Raise IndexError, (sel_empty, w_two)) /\
  reorder_lines [0; 0]%Z (sel_empty, w_two) = (Raise AssertionError, (sel_empty, w_two)) /\
  fst (reorder_lines [1; 0]%Z (sel_empty, w_two)) = Ok tt /\
  ax_lines (snd (snd (reorder_lines [1; 0]%Z (sel_empty, w_two)))) 0 = [1; 0].
Proof. repeat split; reflexivity. Qed.

(** ** Monad steps *)

Lemma redraw_eq (a : AxId) (c : AxesLineSelector) (w : World) :
  redraw a (c, w) = (Ok tt, (c, redraw_world a w)).
Proof.
  unfold redraw, redraw_world, bind, get_world, modify_world, ret; simpl.
  destruct (legend_visible (axes w a)); reflexivity.
Qed.

Lemma redraw_count_app (e1 e2 : list Event) :
  redraw_count (e1 ++ e2) = redraw_count e1 + redraw_count e2.
Proof.
  induction e1 as [| e r IH]; simpl; [reflexivity |].
  destruct e; simpl; rewrite ?IH; reflexivity.
Qed.

Lemma redraw_world_count (a : AxId) (w : World) :
  redraw_count (log (redraw_world a w)) = S (redraw_count (log w)).
Proof.
  unfold redraw_world; destruct (legend_visible (axes w a)); simpl;
    rewrite ?redraw_count_app; simpl; lia.
Qed.

Lemma redraw_world_lines (a b : AxId) (w : World) :
  ax_lines (redraw_world a w) b = ax_lines w b.
Proof. unfold redraw_world; destruct (legend_visible (axes w a)); reflexivity. Qed.

Lemma emit_count (w : World) (msg : string) (o : option LineId) :
  redraw_count (log (emit (EvPrint msg o) w)) = redraw_count (log w).
Proof. simpl. rewrite redraw_count_app. simpl. lia. Qed.

Lemma set_ax_lines_same (a : AxId) (ls : list LineId) (w : World) :
  ax_lines (set_ax_lines a ls w) a = ls.
Proof. unfold ax_lines, set_ax_lines; simpl. rewrite Nat.eqb_refl. reflexivity. Qed.

Lemma mem_In (x : LineId) (ls : list LineId) : mem x ls = true <-> In x ls.
Proof.
  unfold mem. rewrite existsb_exists. split.
  - intros [y [Hy Heq]]. apply Nat.eqb_eq in Heq. subst. exact Hy.
  - intros H. exists x. split; [exact H | apply Nat.eqb_refl].
Qed.

Lemma py_index_In {A} (ls : list A) (i : Z) (x : A) :
  py_index ls i = Some x -> In x ls.
Proof.
  unfold py_index.
  destruct ((0 <=? i) && (i <? Z.of_nat (length ls)))%Z;
    [| destruct ((- Z.of_nat (length ls) <=? i) && (i <? 0))%Z]; intros H;
    [eapply nth_error_In; exact H | eapply nth_error_In; exact H | discriminate].
Qed.

Lemma py_index_last_None {A} (ls : list A) : py_index ls (-1) = None -> ls = [].
Proof.
  destruct ls as [| y r]; [reflexivity |]. intros H. exfalso.
  unfold py_index in H. simpl length in H.
  destruct ((0 <=? -1) && (-1 <? Z.of_nat (S (length r))))%Z eqn:E1.
  - apply andb_true_iff in E1 as [E1 _]. apply Z.leb_le in E1. lia.
  - destruct ((- Z.of_nat (S (length r)) <=? -1) && (-1 <? 0))%Z eqn:E2.
    + apply nth_error_Some in H; [exact H |]. simpl length. lia.
    + apply andb_false_iff in E2 as [E2 | E2];
        [apply Z.leb_gt in E2 | apply Z.ltb_ge in E2]; lia.
Qed.

Lemma remove_first_length (x : LineId) (ls : list LineId) :
  In x ls -> S (length (remove_first x ls)) = length ls.
Proof.
  induction ls as [| y r IH]; simpl; [contradiction |].
  intros [-> | H].
  - rewrite Nat.eqb_refl. reflexivity.
  - destruct (Nat.eqb x y); simpl; [reflexivity | rewrite IH; auto].
Qed.

Lemma _delete_line_spec (ln : LineId) (c : AxesLineSelector) (w : World) :
  exists w',
    _delete_line ln (c, w) = (Ok tt, (c, w')) /\
    redraw_count (log w') = S (redraw_count (log w)) /\
    ax_lines w' (ax c) =
      (if mem ln (ax_lines w (ax c)) then remove_first ln (ax_lines w (ax c))
       else ax_lines w (ax c)).
Proof.
  unfold _delete_line, bind, get_self, get_lines, get_world, ret, set_lines,
    modify_world, print.
  cbn -[redraw].
  destruct (mem ln (ax_lines w (ax c))); cbn -[redraw]; rewrite redraw_eq; eexists;
    (split; [reflexivity | split]);
    rewrite ?redraw_world_count, ?emit_count, ?redraw_world_lines; try reflexivity.
  apply set_ax_lines_same.
Qed.

Lemma set_line_clipboard_id (c : AxesLineSelector) :
  set_line_clipboard (line_clipboard c) c = c.
Proof. destruct c; reflexivity. Qed.

(** ** Deleting the selection and all lines *)

Lemma delete_selection_loop_spec (fuel : nat) :
  forall (c : AxesLineSelector) (w : World),
    length (line_clipboard c) <= fuel ->
    exists w',
      delete_selection_loop fuel (c, w) = (Ok tt, (set_line_clipboard [] c, w')) /\
      redraw_count (log w') = redraw_count (log w) + length (line_clipboard c).
Proof.
  induction fuel as [| f IH]; intros c w Hf.
  - destruct c as [a cb b i p]; destruct cb; simpl in *; [| lia].
    exists w. split; [reflexivity | lia].
  - destruct c as [a cb b i p]; destruct cb as [| ln rest].
    + exists w. split; [reflexivity | simpl; lia].
    + simpl in Hf.
      destruct (_delete_line_spec ln (mkAxesLineSelector a rest b i p) w)
        as [w1 [Hd [Hc _]]].
      destruct (IH (mkAxesLineSelector a rest b i p) w1) as [w2 [Hl Hc2]];
        [simpl; lia |].
      exists w2. split.
      * cbn [delete_selection_loop]. unfold bind, get_self, modify_self; simpl.
        unfold set_line_clipboard at 1; simpl. rewrite Hd. exact Hl.
      * rewrite Hc2, Hc. simpl. lia.
Qed.

Lemma delete_selection_spec (c : AxesLineSelector) (w : World) :
  exists w',
    delete_selection (c, w) =
      (Ok tt, (set_line_clipboard []
                 (set_delete_buffer (snapshot (delete_buffer c) (ax_lines w (ax c))) c), w')) /\
    redraw_count (log w') = redraw_count (log w) + length (line_clipboard c).
Proof.
  set (c1 := set_delete_buffer (snapshot (delete_buffer c) (ax_lines w (ax c))) c).
  destruct (delete_selection_loop_spec (length (line_clipboard c1)) c1 w (le_n _))
    as [w' [Hl Hc]].
  exists w'. split; [| exact Hc].
  unfold delete_selection, snapshot_lines, bind, get_lines, get_self, get_world,
    modify_self, ret; simpl. exact Hl.
Qed.

Lemma delete_all_loop_spec (fuel : nat) :
  forall (c : AxesLineSelector) (w : World),
    length (ax_lines w (ax c)) <= fuel ->
    exists w',
      delete_all_loop fuel (c, w) = (Ok tt, (c, w')) /\
      redraw_count (log w') = redraw_count (log w) + length (ax_lines w (ax c)) /\
      ax_lines w' (ax c) = [].
Proof.
  induction fuel as [| f IH]; intros c w Hf.
  - destruct (ax_lines w (ax c)) eqn:E; simpl in Hf; [| lia].
    exists w. split; [reflexivity | split; [simpl; lia | exact E]].
  - cbn [delete_all_loop]. unfold bind, get_lines, get_self, get_world, ret; simpl.
    destruct (py_index (ax_lines w (ax c)) (-1)) as [ln |] eqn:E.
    + apply py_index_In in E.
      destruct (_delete_line_spec ln c w) as [w1 [Hd [Hc Hls]]].
      rewrite (proj2 (mem_In _ _) E) in Hls.
      pose proof (remove_first_length _ _ E) as Hlen.
      destruct (IH c w1) as [w2 [Hl [Hc2 Hnil]]]; [rewrite Hls; lia |].
      exists w2. rewrite Hd. split; [exact Hl | split; [| exact Hnil]].
      rewrite Hc2, Hc, Hls. lia.
    + apply py_index_last_None in E. rewrite E.
      exists w. split; [reflexivity | split; [simpl; lia | exact E]].
Qed.

Lemma delete_all_lines_spec (c : AxesLineSelector) (w : World) :
  exists w',
    delete_all_lines (c, w) =
      (Ok tt, (set_delete_buffer (snapshot (delete_buffer c) (ax_lines w (ax c))) c, w')) /\
    redraw_count (log w') = redraw_count (log w) + length (ax_lines w (ax c)) /\
    ax_lines w' (ax c) = [].
Proof.
  set (c1 := set_delete_buffer (snapshot (delete_buffer c) (ax_lines w (ax c))) c).
  destruct (delete_all_loop_spec (length (ax_lines w (ax c1))) c1 w (le_n _))
    as [w' [Hl [Hc Hnil]]].
  exists w'. split; [| split; assumption].
  unfold delete_all_lines, snapshot_lines, bind, get_lines, get_self, get_world,
    modify_self, ret; simpl. exact Hl.
Qed.

(** C10: [delete_selection] returns normally with an empty clipboard, having
    popped every entry from its front. *)
Theorem delete_selection_empties_clipboard (c : AxesLineSelector) (w : World) :
  fst (delete_selection (c, w)) = Ok tt /\
  line_clipboard (fst (snd (delete_selection (c, w)))) = [].
Proof.
  destruct (delete_selection_spec c w) as [w' [H _]]. rewrite H. split; reflexivity.
Qed.

(** C3 (as the code does it): [delete_selection] requests one redraw per
    clipboard entry (from [_delete_line], after each removal), so [k] redraws
    for a clipboard of size [k] and none for an empty one; [delete_all_lines]
    requests one redraw per series removed. *)
Theorem delete_redraw_per_removal (c : AxesLineSelector) (w : World) :
  redraw_count (log (snd (snd (delete_selection (c, w))))) =
    redraw_count (log w) + length (line_clipboard c) /\
  redraw_count (log (snd (snd (delete_all_lines (c, w))))) =
    redraw_count (log w) + length (ax_lines w (ax c)).
Proof.
  destruct (delete_selection_spec c w) as [w1 [H1 C1]].
  destruct (delete_all_lines_spec c w) as [w2 [H2 [C2 _]]].
  rewrite H1, H2. split; assumption.
Qed.

(** C3 fails as stated: deleting a two-line selection requests two redraws,
    not one. *)
Lemma delete_selection_two_redraws :
  redraw_count (log (snd (snd (delete_selection (sel_ends, w_three))))) = 2.
Proof. reflexivity. Qed.

(** ** Deleting by index and undoing *)

Lemma nth_shift_map (i : nat) (l : LineId) (r : list LineId) (ks : list nat) :
  (forall k, In k ks -> S i <= k) ->
  map (fun k => nth (k - i) (l :: r) 0) ks = map (fun k => nth (k - S i) r 0) ks.
Proof.
  intros H. apply map_ext_in. intros k Hk. specialize (H k Hk).
  replace (k - i) with (S (k - S i)) by lia. reflexivity.
Qed.

Lemma delete_by_inds_loop_spec (inds : list Z) (ls : list LineId) :
  forall (i : nat) (c : AxesLineSelector) (w : World),
  exists w',
    delete_by_inds_loop inds i ls (c, w) =
      (Ok (map (fun k => nth (k - i) ls 0)
               (filter (fun k => negb (existsb (Z.eqb (Z.of_nat k)) inds))
                       (seq i (length ls)))), (c, w')).
Proof.
  induction ls as [| l r IH]; intros i c w.
  - exists w. reflexivity.
  - cbn [delete_by_inds_loop length seq filter].
    assert (Hge : forall k, In k (filter (fun k => negb (existsb (Z.eqb (Z.of_nat k)) inds))
                                          (seq (S i) (length r))) -> S i <= k).
    { intros k Hk. apply filter_In in Hk as [Hk _]. apply in_seq in Hk. lia. }
    destruct (negb (existsb (Z.eqb (Z.of_nat i)) inds)).
    + destruct (IH (S i) c w) as [w' Hl]. exists w'.
      unfold bind, ret. rewrite Hl. cbn [map].
      rewrite Nat.sub_diag, (nth_shift_map i l r _ Hge). reflexivity.
    + destruct (IH (S i) c (emit (EvPrint "Deleted line" (Some l)) w)) as [w' Hl].
      exists w'. unfold bind, print, modify_world. simpl fst; simpl snd.
      rewrite Hl. rewrite (nth_shift_map i l r _ Hge). reflexivity.
Qed.

Lemma delete_lines_by_inds_ok (c : AxesLineSelector) (w : World) (inds : list Z) :
  inds <> [] ->
  exists w',
    delete_lines_by_inds inds (c, w) =
      (Ok tt, (set_delete_buffer (snapshot (delete_buffer c) (ax_lines w (ax c))) c, w')) /\
    ax_lines w' (ax c) = kept_positions inds (ax_lines w (ax c)).
Proof.
  intros Hne.
  set (c1 := set_delete_buffer (snapshot (delete_buffer c) (ax_lines w (ax c))) c).
  destruct (delete_by_inds_loop_spec inds (ax_lines w (ax c)) 0 c1 w) as [w1 Hl].
  unfold delete_lines_by_inds.
  destruct inds as [| z zs]; [contradiction |]. cbn [length Nat.ltb Nat.leb].
  unfold snapshot_lines, bind, get_lines, get_self, get_world, modify_self, ret.
  cbn -[redraw delete_by_inds_loop].
  change (set_delete_buffer (snapshot (delete_buffer c) (ax_lines w (ax c))) c) with c1.
  rewrite Hl. unfold set_lines, bind, get_self, modify_world. cbn -[redraw].
  rewrite redraw_eq. eexists. split; [reflexivity |].
  rewrite redraw_world_lines, set_ax_lines_same.
  unfold kept_positions. apply map_ext. intros k. rewrite Nat.sub_0_r. reflexivity.
Qed.

(** C6: with no index [delete_lines_by_inds] raises [ValueError] and
    changes nothing (no snapshot); otherwise it snapshots the series list
    and keeps exactly the series at the positions not listed, in their
    original order (listed indices matching no position have no effect). *)
Theorem delete_lines_by_inds_contract (c : AxesLineSelector) (w : World) (inds : list Z) :
  (inds = [] -> delete_lines_by_inds inds (c, w) = (Raise ValueError, (c, w))) /\
  (inds <> [] ->
   exists w',
     delete_lines_by_inds inds (c, w) =
       (Ok tt, (set_delete_buffer (snapshot (delete_buffer c) (ax_lines w (ax c))) c, w')) /\
     ax_lines w' (ax c) = kept_positions inds (ax_lines w (ax c))).
Proof.
  split.
  - intros ->. reflexivity.
  - apply delete_lines_by_inds_ok.
Qed.

Lemma snapshot_len_pos {T} (b : SnapshotBuffer T) (x : T) :
  1 <= max_len b -> buffer_len (snapshot b x) <> 0.
Proof.
  intros Hn. destruct b as [n s]; simpl in *.
  unfold buffer_len, snapshot, deque_append; simpl.
  destruct (Nat.ltb_spec n (length (s ++ [x]))) as [Hlt | Hge].
  - destruct s as [| y s]; simpl in *; [lia |].
    rewrite length_app; simpl; lia.
  - rewrite length_app; simpl; lia.
Qed.

(** C7: [delete_lines_by_inds] followed by [undo_last_delete] gives back
    the series list as it was before the deletion (with a buffer of
    capacity at least one, as the constructor's 25). *)
Theorem delete_then_undo_restores (c : AxesLineSelector) (w : World) (inds : list Z) :
  inds <> [] -> 1 <= max_len (delete_buffer c) ->
  let s1 := snd (delete_lines_by_inds inds (c, w)) in
  fst (undo_last_delete s1) = Ok tt /\
  ax_lines (snd (snd (undo_last_delete s1))) (ax c) = ax_lines w (ax c).
Proof.
  intros Hne Hcap.
  destruct (delete_lines_by_inds_ok c w inds Hne) as [w1 [Hd _]].
  cbv zeta. rewrite Hd. simpl snd.
  set (b := delete_buffer c). set (ls := ax_lines w (ax c)).
  pose proof (rewind_snapshot b ls Hcap) as Hr.
  pose proof (snapshot_len_pos b ls Hcap) as Hlen.
  unfold undo_last_delete, bind, get_self; cbn -[redraw rewind snapshot buffer_len].
  destruct (Nat.eqb_spec (buffer_len (snapshot b ls)) 0) as [E | _]; [contradiction |].
  destruct (rewind (snapshot b ls)) as [r b'] eqn:Er. simpl in Hr. subst r.
  unfold modify_self, set_lines, get_self, modify_world; cbn -[redraw].
  rewrite redraw_eq. split; [reflexivity |].
  simpl. rewrite redraw_world_lines, set_ax_lines_same. reflexivity.
Qed.

Lemma delete_then_undo_restores_witness :
  [0%Z] <> [] /\ 1 <= max_len (delete_buffer sel_empty) /\
  let s1 := snd (delete_lines_by_inds [0%Z] (sel_empty, w_three)) in
  fst (undo_last_delete s1) = Ok tt /\
  ax_lines (snd (snd (undo_last_delete s1))) (ax sel_empty) = ax_lines w_three (ax sel_empty).
Proof.
  split; [discriminate | split; [simpl; lia |]].
  apply (delete_then_undo_restores sel_empty w_three [0%Z]); [discriminate | simpl; lia].
Defined.

(** ** The clipboard stays duplicate-free *)

Lemma _add_line_to_clipboard_eq (ln : LineId) (c : AxesLineSelector) (w : World) :
  exists msg,
    _add_line_to_clipboard ln (c, w) =
      (Ok tt, (set_line_clipboard (clip_add ln (line_clipboard c)) c,
               emit (EvPrint msg (Some ln)) w)).
Proof.
  unfold _add_line_to_clipboard, clip_add, bind, get_self, modify_self, print,
    modify_world; simpl.
  destruct (mem ln (line_clipboard c)); simpl; eexists;
    [rewrite set_line_clipboard_id |]; reflexivity.
Qed.

Lemma clip_add_NoDup (ln : LineId) (cb : list LineId) :
  NoDup cb -> NoDup (clip_add ln cb).
Proof.
  intros H. unfold clip_add. destruct (mem ln cb) eqn:E; [exact H |].
  apply (Permutation_NoDup (Permutation_cons_append cb ln)).
  constructor; [| exact H].
  intros Hin. apply mem_In in Hin. congruence.
Qed.

Lemma clip_add_incl (ln : LineId) (cb : list LineId) : incl cb (clip_add ln cb).
Proof.
  unfold clip_add. destruct (mem ln cb); [apply incl_refl |]. apply incl_appl, incl_refl.
Qed.

Lemma clip_add_In (ln : LineId) (cb : list LineId) : In ln (clip_add ln cb).
Proof.
  unfold clip_add. destruct (mem ln cb) eqn:E; [apply mem_In; exact E |].
  apply in_or_app. right. left. reflexivity.
Qed.

Lemma clip_add_present (ln : LineId) (cb : list LineId) : In ln cb -> clip_add ln cb = cb.
Proof. intros H. unfold clip_add. apply mem_In in H. rewrite H. reflexivity. Qed.

Lemma set_line_clipboard_twice (cb1 cb2 : list LineId) (c : AxesLineSelector) :
  set_line_clipboard cb2 (set_line_clipboard cb1 c) = set_line_clipboard cb2 c.
Proof. reflexivity. Qed.

Lemma add_all_NoDup (lns : list LineId) :
  forall (c : AxesLineSelector) (w : World),
  NoDup (line_clipboard c) -> NoDup (line_clipboard (fst (snd (add_all lns (c, w))))).
Proof.
  induction lns as [| ln r IH]; intros c w H; [exact H |].
  cbn [add_all]. destruct (_add_line_to_clipboard_eq ln c w) as [msg E].
  unfold bind. rewrite E. apply IH. apply clip_add_NoDup, H.
Qed.

(** The run of [select_by_inds_loop]: the selector changes only in its
    clipboard, which grows, stays duplicate-free, and ends up holding
    every line the loop reached; ax.lines are untouched. *)
Lemma select_by_inds_loop_spec (inds : list Z) :
  forall (c : AxesLineSelector) (w : World),
  exists r cb' w',
    select_by_inds_loop inds (c, w) = (r, (set_line_clipboard cb' c, w')) /\
    (forall a, ax_lines w' a = ax_lines w a) /\
    (NoDup (line_clipboard c) -> NoDup cb') /\
    incl (line_clipboard c) cb' /\
    selected_prefix (ax_lines w (ax c)) inds cb' /\
    (selected_prefix (ax_lines w (ax c)) inds (line_clipboard c) -> cb' = line_clipboard c).
Proof.
  induction inds as [| ind rest IH]; intros c w.
  - exists (Ok tt), (line_clipboard c), w.
    rewrite set_line_clipboard_id. repeat split; auto using incl_refl.
  - cbn [select_by_inds_loop]. unfold bind, get_lines, get_self, get_world, ret; simpl.
    destruct (py_index (ax_lines w (ax c)) ind) as [ln |] eqn:E.
    + destruct (_add_line_to_clipboard_eq ln c w) as [msg Ha]. rewrite Ha.
      set (c1 := set_line_clipboard (clip_add ln (line_clipboard c)) c).
      destruct (IH c1 (emit (EvPrint msg (Some ln)) w))
        as [r [cb' [w' [Hl [Hax [Hnd [Hinc [Hsel Hfix]]]]]]]].
      exists r, cb', w'. rewrite Hl. unfold c1. rewrite set_line_clipboard_twice.
      cbn [selected_prefix]; try rewrite E.
      simpl in Hsel, Hfix, Hinc, Hnd.
      repeat split.
      * intros a. rewrite Hax. reflexivity.
      * intros H. apply Hnd, clip_add_NoDup, H.
      * eapply incl_tran; [apply clip_add_incl | exact Hinc].
      * apply Hinc, clip_add_In.
      * exact Hsel.
      * intros [Hin Hp]. rewrite clip_add_present in Hfix by exact Hin.
        apply Hfix, Hp.
    + exists (Raise IndexError), (line_clipboard c), w.
      rewrite set_line_clipboard_id. cbn [selected_prefix]; try rewrite E.
      repeat split; auto using incl_refl.
Qed.

Lemma selected_prefix_incl (ls : list LineId) (inds : list Z) (cb cb' : list LineId) :
  incl cb cb' -> selected_prefix ls inds cb -> selected_prefix ls inds cb'.
Proof.
  intros Hi. induction inds as [| ind r IH]; simpl; [auto |].
  destruct (py_index ls ind); [| auto]. intros [H1 H2]. split; auto.
Qed.

Lemma select_lines_by_inds_NoDup (inds : list Z) (c : AxesLineSelector) (w : World) :
  NoDup (line_clipboard c) ->
  NoDup (line_clipboard (fst (snd (select_lines_by_inds inds (c, w))))).
Proof.
  intros H. unfold select_lines_by_inds.
  destruct (length inds <? 1); [exact H |].
  destruct (select_by_inds_loop_spec inds c w) as [r [cb' [w' [Hl [_ [Hnd _]]]]]].
  rewrite Hl. apply Hnd, H.
Qed.

(** C8: [_select_callback] (interactive pick), [select_lines_by_inds],
    [select_lines] and [select_all_lines] keep a duplicate-free clipboard
    duplicate-free, and a second [select_lines_by_inds] with the same
    indices leaves the clipboard as the first left it. *)
Theorem clipboard_duplicate_free :
  (forall ln c w, NoDup (line_clipboard c) ->
     NoDup (line_clipboard (fst (snd (_select_callback ln (c, w)))))) /\
  (forall inds c w, NoDup (line_clipboard c) ->
     NoDup (line_clipboard (fst (snd (select_lines_by_inds inds (c, w)))))) /\
  (forall sel_fn c w, NoDup (line_clipboard c) ->
     NoDup (line_clipboard (fst (snd (select_lines sel_fn (c, w)))))) /\
  (forall c w, NoDup (line_clipboard c) ->
     NoDup (line_clipboard (fst (snd (select_all_lines (c, w)))))) /\
  (forall inds c w,
     let s1 := snd (select_lines_by_inds inds (c, w)) in
     line_clipboard (fst (snd (select_lines_by_inds inds s1))) = line_clipboard (fst s1)).
Proof.
  split; [| split; [| split; [| split]]].
  - intros ln c w H. unfold _select_callback.
    destruct (_add_line_to_clipboard_eq ln c w) as [msg E]. rewrite E.
    apply clip_add_NoDup, H.
  - intros inds c w H. apply select_lines_by_inds_NoDup, H.
  - intros sel_fn c w H. unfold select_lines, bind, get_lines, get_self, get_world, ret.
    simpl. apply add_all_NoDup, H.
  - intros c w H. unfold select_all_lines, bind, get_lines, get_self, get_world, ret.
    simpl. apply add_all_NoDup, H.
  - intros inds c w. cbv zeta. unfold select_lines_by_inds.
    destruct (length inds <? 1); [reflexivity |].
    destruct (select_by_inds_loop_spec inds c w)
      as [r [cb' [w' [Hl [Hax [_ [_ [Hsel _]]]]]]]].
    rewrite Hl. simpl snd.
    destruct (select_by_inds_loop_spec inds (set_line_clipboard cb' c) w')
      as [r2 [cb2 [w2 [Hl2 [_ [_ [_ [_ Hfix]]]]]]]].
    rewrite Hl2. simpl. apply Hfix. simpl. rewrite Hax. exact Hsel.
Qed.

(** ** Setting attributes on the selection *)

Lemma set_line_prop_heap (l : LineId) (name : string) (v : Value) (w : World) (m : LineId) :
  heap (set_line_prop l name v w) m =
    if Nat.eqb m l
    then mkLine2D (xdata (heap w l)) (ydata (heap w l))
           (fun n => if String.eqb n name then v else props (heap w l) n)
    else heap w m.
Proof. reflexivity. Qed.

Lemma set_line_fields_heap (l : LineId) (ps : string -> Value) (w : World) (m : LineId) :
  heap (set_line_fields l ps w) m =
    if Nat.eqb m l then mkLine2D (xdata (heap w l)) (ydata (heap w l)) ps else heap w m.
Proof. reflexivity. Qed.

Lemma nth_fst_not_head (l0 : LineId) (r : list (LineId * Value)) (i : nat) :
  ~ In l0 (map fst r) -> i < length r -> fst (nth i r (0, VNone)) <> l0.
Proof. intros Hn Hi E. apply Hn. rewrite <- E. apply in_map, nth_In, Hi. Qed.

Lemma In_firstn_In {A} (x : A) (j : nat) (l : list A) : In x (firstn j l) -> In x l.
Proof. intros H. rewrite <- (firstn_skipn j l). apply in_or_app. left. exact H. Qed.

(** The setter loop on distinct lines, up to the [j]-th call: the first [j]
    setter calls succeed in order, each on the fields its line had before;
    if [j] is the end the loop returns, and if the [j]-th call raises, its
    exception leaves the first [j] lines set. *)
Lemma set_all_prefix {L : Line2DMethods} (attr : string) (pairs : list (LineId * Value)) :
  has_accessors attr = true -> NoDup (map fst pairs) ->
  forall (c : AxesLineSelector) (w : World) (j : nat),
  j <= length pairs ->
  (forall i, i < j -> exists ps, line_set attr (snd (nth i pairs (0, VNone)))
                                   (props (heap w (fst (nth i pairs (0, VNone))))) = Ok ps) ->
  exists w',
    (forall i, i < j ->
       line_set attr (snd (nth i pairs (0, VNone))) (props (heap w (fst (nth i pairs (0, VNone)))))
       = Ok (props (heap w' (fst (nth i pairs (0, VNone)))))) /\
    (forall m, ~ In m (firstn j (map fst pairs)) -> heap w' m = heap w m) /\
    (forall m, xdata (heap w' m) = xdata (heap w m) /\ ydata (heap w' m) = ydata (heap w m)) /\
    axes w' = axes w /\ next_id w' = next_id w /\ log w' = log w /\
    (j = length pairs -> set_all attr pairs (c, w) = (Ok tt, (c, w'))) /\
    (forall e, j < length pairs ->
       line_set attr (snd (nth j pairs (0, VNone))) (props (heap w (fst (nth j pairs (0, VNone)))))
       = Raise e ->
       set_all attr pairs (c, w) = (Raise e, (c, w'))).
Proof.
  intros Hs. induction pairs as [| [l0 v0] r IH]; intros Hnd c w j Hj Hok.
  - cbn [length] in Hj. assert (j = 0) by lia. subst j. exists w.
    refine (conj _ (conj _ (conj _ (conj eq_refl (conj eq_refl (conj eq_refl (conj _ _))))))).
    + intros i Hi; lia.
    + intros m _; reflexivity.
    + intros m; split; reflexivity.
    + intros _; reflexivity.
    + intros e He; cbn in He; lia.
  - cbn [map fst] in Hnd. apply NoDup_cons_iff in Hnd as [Hn Hnd].
    assert (Hset : set_all attr ((l0, v0) :: r) (c, w) =
      match line_set attr v0 (props (heap w l0)) with
      | Raise e => (Raise e, (c, w))
      | Ok ps => set_all attr r (c, set_line_fields l0 ps w)
      end).
    { cbn [set_all]. unfold py_getattr_method. rewrite Hs.
      unfold bind, ret, get_world, raise, modify_world. cbn -[set_all].
      destruct (line_set attr v0 (props (heap w l0))); reflexivity. }
    destruct j as [| j].
    + exists w.
      refine (conj _ (conj _ (conj _ (conj eq_refl (conj eq_refl (conj eq_refl (conj _ _))))))).
      * intros i Hi; lia.
      * intros m _; reflexivity.
      * intros m; split; reflexivity.
      * intros E; cbn in E; lia.
      * intros e _ He. rewrite Hset. cbn [nth fst snd] in He. rewrite He. reflexivity.
    + destruct (Hok 0 ltac:(lia)) as [ps0 Hps0]. cbn [nth fst snd] in Hps0.
      set (w1 := set_line_fields l0 ps0 w).
      assert (Hw1 : forall i, i < length r ->
                heap w1 (fst (nth i r (0, VNone))) = heap w (fst (nth i r (0, VNone)))).
      { intros i Hi. unfold w1. rewrite set_line_fields_heap.
        destruct (Nat.eqb_spec (fst (nth i r (0, VNone))) l0) as [E | _]; [| reflexivity].
        exfalso. exact (nth_fst_not_head l0 r i Hn Hi E). }
      cbn [length] in Hj.
      destruct (IH Hnd c w1 j ltac:(lia)) as [w' [Hcall [Hout [Hdat [Hax [Hid [Hlog [Hfin Hfail]]]]]]]].
      { intros i Hi. rewrite (Hw1 i) by lia. exact (Hok (S i) ltac:(lia)). }
      exists w'.
      assert (Hl0 : heap w' l0 = heap w1 l0).
      { apply Hout. intros Hin. apply Hn. exact (In_firstn_In l0 j _ Hin). }
      refine (conj _ (conj _ (conj _ (conj _ (conj _ (conj _ (conj _ _))))))).
      * intros [| i] Hi.
        -- cbn [nth fst snd]. rewrite Hl0. unfold w1. rewrite set_line_fields_heap, Nat.eqb_refl.
           exact Hps0.
        -- cbn [nth]. rewrite <- (Hw1 i) by lia. apply Hcall. lia.
      * intros m Hm. cbn [firstn map fst] in Hm.
        rewrite Hout by (intros H; apply Hm; right; exact H).
        unfold w1. rewrite set_line_fields_heap.
        destruct (Nat.eqb_spec m l0) as [E | _]; [| reflexivity].
        exfalso. apply Hm. left. symmetry. exact E.
      * intros m. rewrite (proj1 (Hdat m)), (proj2 (Hdat m)). unfold w1.
        rewrite set_line_fields_heap.
        destruct (Nat.eqb_spec m l0); [subst |]; split; reflexivity.
      * rewrite Hax. reflexivity.
      * rewrite Hid. reflexivity.
      * rewrite Hlog. reflexivity.
      * intros E. cbn [length] in E. rewrite Hset, Hps0. apply Hfin. lia.
      * intros e He Hj'. cbn [length] in He. rewrite Hset, Hps0. apply Hfail; [lia |].
        cbn [nth] in Hj'. rewrite (Hw1 j) by lia. exact Hj'.
Qed.

Lemma map_fst_combine {A B} (l : list A) (l' : list B) :
  length l = length l' -> map fst (combine l l') = l.
Proof.
  revert l'. induction l as [| x r IH]; intros [| y r'] H; simpl in *; try lia; auto.
  rewrite IH by lia. reflexivity.
Qed.

Lemma length_enumerate_from {A} (j : nat) (l : list A) : length (enumerate_from j l) = length l.
Proof. revert j. induction l; intros j; simpl; auto. Qed.


Lemma redraw_world_heap (a : AxId) (w : World) : heap (redraw_world a w) = heap w.
Proof. unfold redraw_world; destruct (legend_visible (axes w a)); reflexivity. Qed.

Lemma selection_values_length (v : Value) (cb : list LineId) :
  (forall vs, v = VTuple vs -> length vs = length cb) ->
  length (selection_values v cb) = length cb.
Proof.
  intros Hv. destruct v; cbn [selection_values]; try apply repeat_length.
  - apply Hv. reflexivity.
  - rewrite length_map. unfold enumerate. apply length_enumerate_from.
Qed.



(** Once the assertions pass, [setattr_selection] runs the setters on
    [zip(self.line_clipboard, values)] and redraws if they all return. *)
Lemma setattr_selection_eq {L : Line2DMethods} (attr : string) (v : Value)
    (c : AxesLineSelector) (w : World) :
  is_line_property attr = true ->
  (forall vs, v = VTuple vs -> length vs = length (line_clipboard c)) ->
  setattr_selection attr v (c, w) =
    match set_all attr (combine (line_clipboard c) (selection_values v (line_clipboard c))) (c, w) with
    | (Ok _, s) => redraw (ax c) s
    | (Raise e, s) => (Raise e, s)
    end.
Proof.
  intros Hattr Hv. unfold setattr_selection, py_assert. rewrite Hattr.
  unfold bind, ret, get_self. cbn -[redraw set_all].
  destruct v; cbn -[redraw set_all]; try reflexivity.
  rewrite (Hv vs eq_refl), Nat.eqb_refl. reflexivity.
Qed.

(** The setter loop of [setattr_selection] on a duplicate-free clipboard,
    up to the [j]-th entry. *)
Lemma setattr_selection_run {L : Line2DMethods} (attr : string) (v : Value)
    (c : AxesLineSelector) (w : World) :
  is_line_property attr = true -> has_accessors attr = true -> NoDup (line_clipboard c) ->
  (forall vs, v = VTuple vs -> length vs = length (line_clipboard c)) ->
  let cb := line_clipboard c in
  let vals := selection_values v cb in
  forall j, j <= length cb ->
  (forall i, i < j -> exists ps,
     line_set attr (nth i vals VNone) (props (heap w (nth i cb 0))) = Ok ps) ->
  exists w',
    (forall i, i < j ->
       line_set attr (nth i vals VNone) (props (heap w (nth i cb 0)))
       = Ok (props (heap w' (nth i cb 0)))) /\
    (forall m, ~ In m (firstn j cb) -> heap w' m = heap w m) /\
    (forall m, xdata (heap w' m) = xdata (heap w m) /\ ydata (heap w' m) = ydata (heap w m)) /\
    axes w' = axes w /\ next_id w' = next_id w /\ log w' = log w /\
    (j = length cb -> setattr_selection attr v (c, w) = (Ok tt, (c, redraw_world (ax c) w'))) /\
    (forall e, j < length cb ->
       line_set attr (nth j vals VNone) (props (heap w (nth j cb 0))) = Raise e ->
       setattr_selection attr v (c, w) = (Raise e, (c, w'))).
Proof.
  intros Hattr Hs Hnd Hv. cbv zeta. intros j Hj Hok.
  rewrite (setattr_selection_eq attr v c w Hattr Hv).
  assert (Hlen : length (selection_values v (line_clipboard c)) = length (line_clipboard c))
    by (apply selection_values_length; exact Hv).
  set (cb := line_clipboard c) in *. set (vals := selection_values v cb) in *.
  set (pairs := combine cb vals).
  assert (Hfst : map fst pairs = cb) by (apply map_fst_combine; lia).
  assert (Hnth : forall i, i < length cb -> nth i pairs (0, VNone) = (nth i cb 0, nth i vals VNone))
    by (intros i Hi; apply combine_nth; lia).
  assert (Hlp : length pairs = length cb) by (unfold pairs; rewrite length_combine; lia).
  destruct (set_all_prefix attr pairs Hs ltac:(rewrite Hfst; exact Hnd) c w j)
    as [w' [Hcall [Hout [Hdat [Hax [Hid [Hlog [Hfin Hfail]]]]]]]].
  { lia. }
  { intros i Hi. rewrite (Hnth i) by lia. cbn [fst snd]. apply Hok, Hi. }
  exists w'.
  refine (conj _ (conj _ (conj Hdat (conj Hax (conj Hid (conj Hlog (conj _ _))))))).
  - intros i Hi. specialize (Hcall i Hi). rewrite (Hnth i) in Hcall by lia. exact Hcall.
  - intros m Hm. apply Hout. rewrite Hfst. exact Hm.
  - intros E. rewrite Hfin by lia. cbn -[redraw]. apply redraw_eq.
  - intros e He Hj'. rewrite (Hfail e) by (try lia; rewrite (Hnth j) by lia; exact Hj').
    reflexivity.
Qed.




(** ** Pasting the selection *)

Lemma copy_props_spec (src dst : LineId) (names : list string) :
  src <> dst ->
  forall (c : AxesLineSelector) (w : World),
  exists w', copy_props src dst names (c, w) = (Ok tt, (c, w')) /\
    (forall m, m <> dst -> heap w' m = heap w m) /\
    xdata (heap w' dst) = xdata (heap w dst) /\
    ydata (heap w' dst) = ydata (heap w dst) /\
    (forall n, In n names -> props (heap w' dst) n = props (heap w src) n) /\
    (forall n, ~ In n names -> props (heap w' dst) n = props (heap w dst) n) /\
    axes w' = axes w /\ next_id w' = next_id w /\ log w' = log w.
Proof.
  intros Hne. induction names as [| name r IH]; intros c w.
  - exists w. repeat split; auto. intros n [].
  - set (w1 := set_line_prop dst name (props (heap w src) name) w).
    destruct (IH c w1) as [w' [Hl [Hout [Hx [Hy [Hin [Hnin [Ha [Hn Hlog]]]]]]]]].
    exists w'. cbn [copy_props]. unfold bind, get_world, modify_world; simpl fst; simpl snd.
    fold w1. rewrite Hl. split; [reflexivity |].
    assert (Hsrc : heap w1 src = heap w src).
    { unfold w1. rewrite set_line_prop_heap.
      destruct (Nat.eqb_spec src dst); [contradiction | reflexivity]. }
    assert (Hdst : heap w1 dst =
              mkLine2D (xdata (heap w dst)) (ydata (heap w dst))
                (fun n => if String.eqb n name then props (heap w src) name
                          else props (heap w dst) n)).
    { unfold w1. rewrite set_line_prop_heap, Nat.eqb_refl. reflexivity. }
    repeat split.
    + intros m Hm. rewrite Hout by exact Hm. unfold w1. rewrite set_line_prop_heap.
      destruct (Nat.eqb_spec m dst); [contradiction | reflexivity].
    + rewrite Hx, Hdst. reflexivity.
    + rewrite Hy, Hdst. reflexivity.
    + intros n Hn'. destruct (in_dec String.string_dec n r) as [Hr | Hr].
      * rewrite Hin, Hsrc by exact Hr. reflexivity.
      * destruct Hn' as [<- | Hn']; [| contradiction].
        rewrite Hnin, Hdst by exact Hr. simpl. rewrite String.eqb_refl. reflexivity.
    + intros n Hn'. rewrite Hnin, Hdst by (intros H; apply Hn'; right; exact H).
      simpl. destruct (String.eqb_spec n name) as [-> | _]; [| reflexivity].
      exfalso. apply Hn'. left. reflexivity.
    + exact Ha.
    + exact Hn.
    + exact Hlog.
Qed.

Lemma paste_loop_spec (a : AxId) (cb : list LineId) :
  forall (c : AxesLineSelector) (w : World),
  Forall (fun l => l < next_id w) cb ->
  exists w', paste_loop a cb (c, w) = (Ok (seq (next_id w) (length cb)), (c, w')) /\
    next_id w' = next_id w + length cb /\
    (forall b, ax_lines w' b =
                 if Nat.eqb b a then ax_lines w a ++ seq (next_id w) (length cb)
                 else ax_lines w b) /\
    (forall m, m < next_id w -> heap w' m = heap w m) /\
    (forall i, i < length cb ->
       let o := heap w (nth i cb 0) in
       let o' := heap w' (next_id w + i) in
       xdata o' = xdata o /\ ydata o' = ydata o /\
       forall n, In n LINE_PROPERTIES -> props o' n = props o n).
Proof.
  induction cb as [| ln r IH]; intros c w Hf.
  - exists w. simpl. repeat split; try lia; try (intros; lia).
    intros b. destruct (Nat.eqb_spec b a); subst; rewrite ?app_nil_r; reflexivity.
  - apply Forall_cons_iff in Hf as [Hln Hr].
    set (l := next_id w).
    set (w1 := snd (plot_world a (xdata (heap w ln)) (ydata (heap w ln)) w)).
    assert (Hne : ln <> l) by (unfold l; lia).
    destruct (copy_props_spec ln l LINE_PROPERTIES Hne c w1)
      as [w2 [Hc [Hout [Hx [Hy [Hin [_ [Hax [Hid _]]]]]]]]].
    assert (Hid1 : next_id w1 = S l) by reflexivity.
    assert (Hheap1 : forall m, m <> l -> heap w1 m = heap w m).
    { intros m Hm. simpl. destruct (Nat.eqb_spec m (next_id w)) as [E | _];
        [exfalso; apply Hm; exact E | reflexivity]. }
    destruct (IH c w2) as [w3 [Hl [Hid3 [Hlines [Hold Hnew]]]]].
    { eapply Forall_impl; [| exact Hr]. intros x Hx'. simpl in Hx'. lia. }
    exists w3. cbn [paste_loop]. unfold bind, get_world, ret, plot. simpl fst; simpl snd.
    change (plot_world a (xdata (heap w ln)) (ydata (heap w ln)) w) with (l, w1).
    cbv iota beta. rewrite Hc, Hl, Hid, Hid1.
    split; [reflexivity |].
    split; [rewrite Hid3, Hid, Hid1; simpl; lia |].
    split; [| split].
    + intros b. rewrite Hlines, Hid, Hid1.
      assert (Hl2 : forall b', ax_lines w2 b' =
                      if Nat.eqb b' a then ax_lines w a ++ [l] else ax_lines w b').
      { intros b'. unfold ax_lines at 1. rewrite Hax. simpl.
        destruct (Nat.eqb b' a); reflexivity. }
      rewrite !Hl2. destruct (Nat.eqb_spec b a) as [-> | _]; [| reflexivity].
      rewrite Nat.eqb_refl, <- app_assoc. reflexivity.
    + intros m Hm. rewrite Hold by (rewrite Hid, Hid1; lia).
      rewrite Hout by lia. apply Hheap1. lia.
    + intros i Hi. destruct i as [| i].
      * rewrite Nat.add_0_r. cbv zeta.
        rewrite Hold by (rewrite Hid, Hid1; lia).
        simpl nth. rewrite Hx, Hy. simpl. rewrite Nat.eqb_refl.
        split; [reflexivity | split; [reflexivity |]].
        intros n Hn'. rewrite Hin by exact Hn'. rewrite Hheap1 by exact Hne. reflexivity.
      * simpl in Hi. destruct (Hnew i ltac:(lia)) as [Hx' [Hy' Hp']].
        rewrite Hid, Hid1 in Hx', Hy', Hp'.
        assert (Hlt : nth i r 0 < l).
        { rewrite Forall_forall in Hr. apply Hr, nth_In. lia. }
        assert (Hsrc : heap w2 (nth i r 0) = heap w (nth i r 0)).
        { rewrite Hout by lia. apply Hheap1. lia. }
        replace (l + S i) with (S l + i) by lia. simpl nth. cbv zeta.
        rewrite <- Hsrc. split; [exact Hx' | split; [exact Hy' | exact Hp']].
Qed.

(** C9 (as the code does it): [paste_selection(ax)] with the clipboard's
    lines allocated (references below the next fresh one) creates [k] fresh
    lines appended to the target axes, one per clipboard entry and in its
    order, with the source's x/y data and allow-listed fields as they were
    at call time; it returns a new selector on the target whose clipboard
    is exactly those lines, and leaves [self], the existing line objects
    and every axes but the target untouched. When the target is the
    source's own axes, that is where the new lines are appended. *)
Theorem paste_selection_contract (c : AxesLineSelector) (w : World) (a : AxId) :
  Forall (fun l => l < next_id w) (line_clipboard c) ->
  let k := length (line_clipboard c) in
  let new_lines := seq (next_id w) k in
  exists w',
    paste_selection a (c, w) =
      (Ok (set_line_clipboard new_lines (AxesLineSelector_init a (picker_arg c))), (c, w')) /\
    ax_lines w' a = ax_lines w a ++ new_lines /\
    (forall b, b <> a -> ax_lines w' b = ax_lines w b) /\
    (forall m, m < next_id w -> heap w' m = heap w m) /\
    (forall i, i < k ->
       let o := heap w (nth i (line_clipboard c) 0) in
       let o' := heap w' (next_id w + i) in
       xdata o' = xdata o /\ ydata o' = ydata o /\
       forall n, In n LINE_PROPERTIES -> props o' n = props o n).
Proof.
  intros Hf. cbv zeta.
  destruct (paste_loop_spec a (line_clipboard c) c w Hf)
    as [w1 [Hl [_ [Hlines [Hold Hnew]]]]].
  exists (redraw_world a w1).
  unfold paste_selection, bind, get_self, ret. cbn -[redraw paste_loop].
  rewrite Hl. rewrite redraw_eq. split; [reflexivity |].
  rewrite !redraw_world_heap. split; [| split; [| split]].
  - rewrite redraw_world_lines, Hlines, Nat.eqb_refl. reflexivity.
  - intros b Hb. rewrite redraw_world_lines, Hlines.
    destruct (Nat.eqb_spec b a); [contradiction | reflexivity].
  - exact Hold.
  - exact Hnew.
Qed.

Lemma paste_selection_contract_witness :
  Forall (fun l => l < next_id w_three) (line_clipboard sel_first) /\
  exists w',
    paste_selection 1 (sel_first, w_three) =
      (Ok (set_line_clipboard [3] (AxesLineSelector_init 1 (picker_arg sel_first))),
       (sel_first, w')) /\
    ax_lines w' 1 = ax_lines w_three 1 ++ [3] /\
    (forall b, b <> 1 -> ax_lines w' b = ax_lines w_three b) /\
    (forall m, m < next_id w_three -> heap w' m = heap w_three m) /\
    (forall i, i < 1 ->
       let o := heap w_three (nth i (line_clipboard sel_first) 0) in
       let o' := heap w' (next_id w_three + i) in
       xdata o' = xdata o /\ ydata o' = ydata o /\
       forall n, In n LINE_PROPERTIES -> props o' n = props o n).
Proof.
  split; [repeat constructor; simpl; lia |].
  exact (paste_selection_contract sel_first w_three 1
           ltac:(repeat constructor; simpl; lia)).
Defined.

(** C9 fails as stated: pasting the selection into its own axes appends
    the new line to the source's series list. *)
Lemma paste_into_own_axes_changes_source :
  ax_lines w_three (ax sel_first) = [0; 1; 2] /\
  ax_lines (snd (snd (paste_selection 0 (sel_first, w_three)))) (ax sel_first) = [0; 1; 2; 3].
Proof. split; reflexivity. Qed.

(** * Further properties of the module *)

(** ** The snapshot buffer's length *)

(** X1: [snapshot] grows the buffer by one up to its capacity and then
    keeps it at capacity; [rewind] shrinks it by one (down to zero); neither
    changes [max_len]. So a buffer never holds more than [max_len] entries. *)
Theorem snapshot_buffer_length {T} (b : SnapshotBuffer T) (x : T) :
  buffer_len b <= max_len b ->
  max_len (snapshot b x) = max_len b /\
  buffer_len (snapshot b x) = Nat.min (S (buffer_len b)) (max_len b) /\
  max_len (snd (rewind b)) = max_len b /\
  buffer_len (snd (rewind b)) = buffer_len b - 1.
Proof.
  intros H. destruct b as [n s]; unfold buffer_len in *; cbn [item_snapshots max_len] in *.
  split; [reflexivity | split; [| split]].
  - unfold snapshot, deque_append; cbn [item_snapshots max_len].
    rewrite length_app. cbn [length].
    destruct (Nat.ltb_spec n (length s + 1)) as [Hlt | Hge].
    + rewrite Nat.min_r by lia. destruct s as [| y r]; cbn [length app tl] in *; [lia |].
      rewrite length_app. cbn [length]. lia.
    + rewrite Nat.min_l by lia. rewrite length_app. cbn [length]. lia.
  - unfold rewind; simpl. destruct (rev s); reflexivity.
  - unfold rewind; simpl. destruct s as [| y r] using rev_ind; [reflexivity |].
    rewrite rev_unit. simpl. rewrite rev_involutive, length_app. simpl. lia.
Qed.

Lemma snapshot_buffer_length_witness :
  buffer_len (SnapshotBuffer_init (T := list LineId) 2) <= max_len (SnapshotBuffer_init (T := list LineId) 2) /\
  max_len (snapshot (SnapshotBuffer_init 2) [0]) = max_len (SnapshotBuffer_init (T := list LineId) 2) /\
  buffer_len (snapshot (SnapshotBuffer_init 2) [0]) =
    Nat.min (S (buffer_len (SnapshotBuffer_init (T := list LineId) 2))) (max_len (SnapshotBuffer_init (T := list LineId) 2)) /\
  max_len (snd (rewind (SnapshotBuffer_init (T := list LineId) 2))) = max_len (SnapshotBuffer_init (T := list LineId) 2) /\
  buffer_len (snd (rewind (SnapshotBuffer_init (T := list LineId) 2))) =
    buffer_len (SnapshotBuffer_init (T := list LineId) 2) - 1.
Proof.
  split; [unfold buffer_len; simpl; lia |].
  apply (snapshot_buffer_length (SnapshotBuffer_init 2) [0]). unfold buffer_len; simpl. lia.
Defined.

(** ** Undoing deletions *)

Lemma undo_last_delete_pop (c : AxesLineSelector) (w : World)
    (s : list (list LineId)) (x : list LineId) :
  item_snapshots (delete_buffer c) = s ++ [x] ->
  undo_last_delete (c, w) =
    (Ok tt, (set_delete_buffer (mkSnapshotBuffer (max_len (delete_buffer c)) s) c,
             redraw_world (ax c) (set_ax_lines (ax c) x w))).
Proof.
  intros E. unfold undo_last_delete, bind, get_self. cbn -[redraw rewind buffer_len].
  unfold buffer_len. rewrite E, length_app. cbn [length].
  rewrite Nat.add_1_r. cbn [Nat.eqb].
  destruct c as [a cb [n items] k p]; cbn [delete_buffer max_len item_snapshots] in *.
  subst items. rewrite rewind_last.
  unfold modify_self, set_lines, get_self, modify_world; cbn -[redraw].
  apply redraw_eq.
Qed.

Lemma snapshot_items_last {T} (b : SnapshotBuffer T) (x : T) :
  1 <= max_len b -> exists s, item_snapshots (snapshot b x) = s ++ [x].
Proof.
  intros Hn. destruct b as [n d]; cbn [max_len] in Hn.
  unfold snapshot, deque_append; cbn [item_snapshots max_len].
  destruct (Nat.ltb_spec n (length (d ++ [x]))) as [Hlt | Hge].
  - destruct d as [| y r]; cbn [length app] in Hlt; [lia |].
    exists r. reflexivity.
  - exists d. reflexivity.
Qed.

Lemma undo_after_snapshot (c : AxesLineSelector) (w : World)
    (b : SnapshotBuffer (list LineId)) (ls : list LineId) :
  delete_buffer c = snapshot b ls -> 1 <= max_len b ->
  fst (undo_last_delete (c, w)) = Ok tt /\
  ax_lines (snd (snd (undo_last_delete (c, w)))) (ax c) = ls.
Proof.
  intros Hb Hn. destruct (snapshot_items_last b ls Hn) as [s Hs].
  rewrite <- Hb in Hs. rewrite (undo_last_delete_pop c w s ls Hs).
  split; [reflexivity |]. cbn [fst snd].
  rewrite redraw_world_lines. apply set_ax_lines_same.
Qed.

Lemma set_ax_lines_heap (a : AxId) (ls : list LineId) (w : World) :
  heap (set_ax_lines a ls w) = heap w /\ log (set_ax_lines a ls w) = log w.
Proof. split; reflexivity. Qed.

Lemma undo_all_loop_spec (n : nat) :
  forall (c : AxesLineSelector) (w : World),
  buffer_len (delete_buffer c) = n ->
  exists w',
    undo_all_loop n (c, w) =
      (Ok tt, (set_delete_buffer (mkSnapshotBuffer (max_len (delete_buffer c)) []) c, w')) /\
    ax_lines w' (ax c) =
      match item_snapshots (delete_buffer c) with
      | [] => ax_lines w (ax c)
      | x :: _ => x
      end /\
    heap w' = heap w /\ log w' = log w.
Proof.
  induction n as [| k IH]; intros c w Hn.
  - destruct c as [a cb [m items] i p]; unfold buffer_len in Hn; cbn in Hn |- *.
    destruct items; [| discriminate]. exists w. repeat split.
  - destruct c as [a cb [m items] i p]; unfold buffer_len in Hn; cbn [delete_buffer item_snapshots] in Hn.
    destruct items as [| y r] using rev_ind; [discriminate |].
    clear IHr. rewrite length_app in Hn. cbn [length] in Hn.
    set (c1 := mkAxesLineSelector a cb (mkSnapshotBuffer m r) i p).
    destruct (IH c1 (set_ax_lines a y w)) as [w' [Hl [Hax [Hh Hlog]]]];
      [unfold buffer_len; cbn; lia |].
    exists w'. cbn [undo_all_loop]. unfold bind, get_self. cbn [fst delete_buffer].
    rewrite rewind_last. unfold modify_self, set_lines, get_self, modify_world, bind.
    cbn -[undo_all_loop set_ax_lines].
    change (set_delete_buffer (mkSnapshotBuffer m r)
              (mkAxesLineSelector a cb (mkSnapshotBuffer m (r ++ [y])) i p)) with c1.
    rewrite Hl. split; [reflexivity |]. split; [| split].
    + unfold c1 in Hax. cbn [delete_buffer item_snapshots ax] in Hax. rewrite Hax.
      destruct r as [| z r']; [apply set_ax_lines_same | reflexivity].
    + rewrite Hh. reflexivity.
    + rewrite Hlog. reflexivity.
Qed.

(** X2: [undo_last_delete] on an empty deletion buffer only prints a notice:
    the selector, the lines and the log of redraws are untouched. Otherwise
    it pops the most recent snapshot, makes it [ax.lines], and requests
    exactly one redraw; the line objects are untouched. *)
Theorem undo_last_delete_contract (c : AxesLineSelector) (w : World) :
  (buffer_len (delete_buffer c) = 0 ->
   undo_last_delete (c, w) = (Ok tt, (c, emit (EvPrint "No line deletions to undo!" None) w))) /\
  (forall s x, item_snapshots (delete_buffer c) = s ++ [x] ->
   exists w',
     undo_last_delete (c, w) =
       (Ok tt, (set_delete_buffer (mkSnapshotBuffer (max_len (delete_buffer c)) s) c, w')) /\
     ax_lines w' (ax c) = x /\
     redraw_count (log w') = S (redraw_count (log w)) /\
     heap w' = heap w).
Proof.
  split.
  - intros H. unfold undo_last_delete, bind, get_self. cbn -[print buffer_len].
    rewrite H. reflexivity.
  - intros s x E. rewrite (undo_last_delete_pop c w s x E). eexists.
    split; [reflexivity |].
    rewrite redraw_world_lines, set_ax_lines_same, redraw_world_count, redraw_world_heap.
    repeat split.
Qed.

(** X3: [undo_all_delete] rewinds the whole buffer: it returns normally,
    leaves the buffer empty (same capacity), sets [ax.lines] to the oldest
    snapshot held (or leaves them as they are when the buffer was empty),
    and requests exactly one redraw, at the end. *)
Theorem undo_all_delete_contract (c : AxesLineSelector) (w : World) :
  exists w',
    undo_all_delete (c, w) =
      (Ok tt, (set_delete_buffer (mkSnapshotBuffer (max_len (delete_buffer c)) []) c, w')) /\
    ax_lines w' (ax c) =
      match item_snapshots (delete_buffer c) with
      | [] => ax_lines w (ax c)
      | x :: _ => x
      end /\
    redraw_count (log w') = S (redraw_count (log w)) /\
    heap w' = heap w.
Proof.
  destruct (undo_all_loop_spec (buffer_len (delete_buffer c)) c w eq_refl)
    as [w1 [Hl [Hax [Hh Hlog]]]].
  unfold undo_all_delete, bind, get_self. cbn -[redraw undo_all_loop].
  rewrite Hl. cbn -[redraw]. rewrite redraw_eq. eexists.
  split; [reflexivity |].
  rewrite redraw_world_lines, redraw_world_count, redraw_world_heap, Hlog, Hh.
  split; [exact Hax | split; reflexivity].
Qed.

(** X4: each deleting operation that snapshots the lines first
    ([delete_selection], [delete_all_lines], and the interactive
    [_delete_callback] on a picked line) is undone by one
    [undo_last_delete]: the lines come back as they were (with a buffer of
    capacity at least one, as the constructor's 25). *)
Theorem delete_undo_round_trips (c : AxesLineSelector) (w : World) :
  1 <= max_len (delete_buffer c) ->
  (let s1 := snd (delete_selection (c, w)) in
   fst (undo_last_delete s1) = Ok tt /\
   ax_lines (snd (snd (undo_last_delete s1))) (ax c) = ax_lines w (ax c)) /\
  (let s1 := snd (delete_all_lines (c, w)) in
   fst (undo_last_delete s1) = Ok tt /\
   ax_lines (snd (snd (undo_last_delete s1))) (ax c) = ax_lines w (ax c)) /\
  (forall ln,
   let s1 := snd (_delete_callback ln (c, w)) in
   fst (undo_last_delete s1) = Ok tt /\
   ax_lines (snd (snd (undo_last_delete s1))) (ax c) = ax_lines w (ax c)).
Proof.
  intros Hn. split; [| split].
  - cbv zeta. destruct (delete_selection_spec c w) as [w1 [H _]]. rewrite H. cbn [snd].
    refine (undo_after_snapshot _ w1 (delete_buffer c) (ax_lines w (ax c)) _ Hn).
    reflexivity.
  - cbv zeta. destruct (delete_all_lines_spec c w) as [w1 [H _]]. rewrite H. cbn [snd].
    refine (undo_after_snapshot _ w1 (delete_buffer c) (ax_lines w (ax c)) _ Hn).
    reflexivity.
  - intros ln. cbv zeta.
    set (c1 := set_delete_buffer (snapshot (delete_buffer c) (ax_lines w (ax c))) c).
    destruct (_delete_line_spec ln c1 w) as [w1 [Hd _]].
    assert (H : _delete_callback ln (c, w) = (Ok tt, (c1, w1))).
    { unfold _delete_callback, snapshot_lines, bind, get_lines, get_self, get_world,
        modify_self, ret. cbn -[_delete_line]. exact Hd. }
    rewrite H. cbn [snd].
    refine (undo_after_snapshot c1 w1 (delete_buffer c) (ax_lines w (ax c)) _ Hn).
    reflexivity.
Qed.

Lemma delete_undo_round_trips_witness :
  1 <= max_len (delete_buffer sel_ends) /\
  (let s1 := snd (delete_selection (sel_ends, w_three)) in
   fst (undo_last_delete s1) = Ok tt /\
   ax_lines (snd (snd (undo_last_delete s1))) (ax sel_ends) = ax_lines w_three (ax sel_ends)) /\
  (let s1 := snd (delete_all_lines (sel_ends, w_three)) in
   fst (undo_last_delete s1) = Ok tt /\
   ax_lines (snd (snd (undo_last_delete s1))) (ax sel_ends) = ax_lines w_three (ax sel_ends)) /\
  (forall ln,
   let s1 := snd (_delete_callback ln (sel_ends, w_three)) in
   fst (undo_last_delete s1) = Ok tt /\
   ax_lines (snd (snd (undo_last_delete s1))) (ax sel_ends) = ax_lines w_three (ax sel_ends)).
Proof.
  split; [simpl; lia |].
  apply (delete_undo_round_trips sel_ends w_three). simpl. lia.
Defined.

(** ** Which lines [delete_selection] removes *)

Lemma remove_first_filter (x : LineId) (ls : list LineId) :
  NoDup ls ->
  (if mem x ls then remove_first x ls else ls) = filter (fun l => negb (Nat.eqb l x)) ls.
Proof.
  intros Hnd. destruct (mem x ls) eqn:E.
  - induction ls as [| y r IH]; [reflexivity |].
    apply NoDup_cons_iff in Hnd as [Hy Hnd]. cbn [remove_first filter].
    destruct (Nat.eqb_spec x y) as [-> | Hne].
    + rewrite Nat.eqb_refl. cbn [negb].
      symmetry. apply forallb_filter_id. apply forallb_forall.
      intros z Hz. destruct (Nat.eqb_spec z y); [subst; contradiction | reflexivity].
    + destruct (Nat.eqb_spec y x); [congruence |]. cbn [negb]. f_equal.
      apply IH; [exact Hnd |]. unfold mem in E |- *. cbn [existsb] in E.
      destruct (Nat.eqb_spec x y); [contradiction | exact E].
  - symmetry. apply forallb_filter_id. apply forallb_forall.
    intros z Hz. destruct (Nat.eqb_spec z x) as [-> | _]; [| reflexivity].
    apply mem_In in Hz. congruence.
Qed.

Lemma filter_filter_and (f g : LineId -> bool) (ls : list LineId) :
  filter f (filter g ls) = filter (fun l => g l && f l) ls.
Proof.
  induction ls as [| x r IH]; [reflexivity |]. cbn [filter].
  destruct (g x); cbn [andb filter]; destruct (f x); rewrite ?IH; reflexivity.
Qed.

Lemma delete_selection_loop_lines (fuel : nat) :
  forall (c : AxesLineSelector) (w : World),
    length (line_clipboard c) <= fuel ->
    NoDup (ax_lines w (ax c)) ->
    exists w',
      delete_selection_loop fuel (c, w) = (Ok tt, (set_line_clipboard [] c, w')) /\
      ax_lines w' (ax c) =
        filter (fun l => negb (mem l (line_clipboard c))) (ax_lines w (ax c)).
Proof.
  induction fuel as [| f IH]; intros c w Hf Hnd.
  - destruct c as [a cb b i p]; destruct cb; cbn in Hf |- *; [| lia].
    exists w. split; [reflexivity |]. symmetry. apply forallb_filter_id.
    apply forallb_forall. reflexivity.
  - destruct c as [a cb b i p]; destruct cb as [| ln rest].
    + exists w. split; [reflexivity |]. symmetry. apply forallb_filter_id.
      apply forallb_forall. reflexivity.
    + cbn [line_clipboard length] in Hf.
      set (c1 := mkAxesLineSelector a rest b i p).
      destruct (_delete_line_spec ln c1 w) as [w1 [Hd [_ Hl1]]].
      rewrite remove_first_filter in Hl1 by exact Hnd.
      destruct (IH c1 w1) as [w2 [Hl Hls]];
        [cbn; lia | rewrite Hl1; apply NoDup_filter, Hnd |].
      exists w2. split.
      * cbn [delete_selection_loop]. unfold bind, get_self, modify_self; cbn [fst snd line_clipboard].
        unfold set_line_clipboard at 1; cbn [ax delete_buffer cid picker_arg].
        change (mkAxesLineSelector a rest b i p) with c1. rewrite Hd. exact Hl.
      * unfold c1 in Hls, Hl1. cbn [ax line_clipboard] in Hls, Hl1 |- *.
        rewrite Hls, Hl1, filter_filter_and.
        apply filter_ext. intros l. unfold mem. cbn [existsb].
        destruct (Nat.eqb l ln); reflexivity.
Qed.

(** X5: [delete_selection] removes from [ax.lines] exactly the selected
    lines that are on the axes, keeping the others in their order (selected
    lines no longer on the axes are skipped); the lines before the call
    are snapshotted and the clipboard ends empty. Stated for an axes whose
    line list has no repeated object, as matplotlib keeps it. *)
Theorem delete_selection_removes_selected (c : AxesLineSelector) (w : World) :
  NoDup (ax_lines w (ax c)) ->
  exists w',
    delete_selection (c, w) =
      (Ok tt, (set_line_clipboard []
                 (set_delete_buffer (snapshot (delete_buffer c) (ax_lines w (ax c))) c), w')) /\
    ax_lines w' (ax c) =
      filter (fun l => negb (mem l (line_clipboard c))) (ax_lines w (ax c)).
Proof.
  intros Hnd.
  set (c1 := set_delete_buffer (snapshot (delete_buffer c) (ax_lines w (ax c))) c).
  destruct (delete_selection_loop_lines (length (line_clipboard c1)) c1 w (le_n _) Hnd)
    as [w' [Hl Hls]].
  exists w'. split; [| exact Hls].
  unfold delete_selection, snapshot_lines, bind, get_lines, get_self, get_world,
    modify_self, ret; cbn [fst snd]. exact Hl.
Qed.

Lemma delete_selection_removes_selected_witness :
  NoDup (ax_lines w_three (ax sel_ends)) /\
  exists w',
    delete_selection (sel_ends, w_three) =
      (Ok tt, (set_line_clipboard []
                 (set_delete_buffer (snapshot (delete_buffer sel_ends)
                                       (ax_lines w_three (ax sel_ends))) sel_ends), w')) /\
    ax_lines w' (ax sel_ends) =
      filter (fun l => negb (mem l (line_clipboard sel_ends))) (ax_lines w_three (ax sel_ends)).
Proof.
  assert (H : NoDup (ax_lines w_three (ax sel_ends)))
    by (cbn; repeat constructor; cbn; intuition discriminate).
  split; [exact H |]. exact (delete_selection_removes_selected sel_ends w_three H).
Defined.

(** ** Refused names, and reading the selection back *)

(** X6: a name outside [LINE_PROPERTIES] is refused by both
    [setattr_selection] and [getattr_selection] with an [AssertionError],
    before anything is read or written. *)
Theorem attr_not_allowed_refused {L : Line2DMethods} (attr : string) (v : Value)
    (c : AxesLineSelector) (w : World) :
  is_line_property attr = false ->
  setattr_selection attr v (c, w) = (Raise AssertionError, (c, w)) /\
  getattr_selection attr (c, w) = (Raise AssertionError, (c, w)).
Proof.
  intros H. unfold setattr_selection, getattr_selection, py_assert. rewrite H.
  split; reflexivity.
Qed.

Lemma attr_not_allowed_refused_witness :
  is_line_property "picker"%string = false /\
  setattr_selection (L := raw_line2d) "picker"%string (VBool false) (sel_all3, w_three) =
    (Raise AssertionError, (sel_all3, w_three)) /\
  getattr_selection (L := raw_line2d) "picker"%string (sel_all3, w_three) =
    (Raise AssertionError, (sel_all3, w_three)).
Proof.
  split; [reflexivity |].
  apply (attr_not_allowed_refused (L := raw_line2d) "picker"%string (VBool false) sel_all3 w_three).
  reflexivity.
Defined.

Lemma get_all_eq {L : Line2DMethods} (attr : string) (lns : list LineId)
    (c : AxesLineSelector) (w : World) :
  get_all attr lns (c, w) =
    (match lns with
     | [] => Ok []
     | _ => if has_accessors attr
            then Ok (map (fun ln => line_get attr (props (heap w ln))) lns)
            else Raise AttributeError
     end, (c, w)).
Proof.
  induction lns as [| ln r IH]; [reflexivity |].
  cbn [get_all]. unfold py_getattr_method.
  destruct (has_accessors attr) eqn:Ha; [| reflexivity].
  unfold bind, ret, get_world. cbn -[get_all]. rewrite IH.
  destruct r; rewrite ?Ha; reflexivity.
Qed.

Lemma getattr_selection_eq {L : Line2DMethods} (attr : string) (c : AxesLineSelector) (w : World) :
  is_line_property attr = true ->
  getattr_selection attr (c, w) = get_all attr (line_clipboard c) (c, w).
Proof. intros H. unfold getattr_selection, py_assert. rewrite H. reflexivity. Qed.

(** X7: for an allow-listed name, [getattr_selection] changes nothing and
    returns, in clipboard order, each entry's [get_<name>()]: nothing on an
    empty clipboard, [AttributeError] for a name [Line2D] has no getter
    for. Right after a [setattr_selection] whose setter calls all return
    on a duplicate-free clipboard, it returns the getter applied to the
    fields each setter produced. *)
Theorem getattr_selection_contract {L : Line2DMethods} (attr : string)
    (c : AxesLineSelector) (w : World) :
  is_line_property attr = true ->
  let cb := line_clipboard c in
  getattr_selection attr (c, w) =
    (match cb with
     | [] => Ok []
     | _ => if has_accessors attr
            then Ok (map (fun ln => line_get attr (props (heap w ln))) cb)
            else Raise AttributeError
     end, (c, w)) /\
  (has_accessors attr = true -> NoDup cb ->
   forall v, (forall vs, v = VTuple vs -> length vs = length cb) ->
   forall pss, length pss = length cb ->
   (forall i, i < length cb ->
      line_set attr (nth i (selection_values v cb) VNone) (props (heap w (nth i cb 0)))
      = Ok (nth i pss (fun _ => VNone))) ->
   exists s1, setattr_selection attr v (c, w) = (Ok tt, s1) /\
     getattr_selection attr s1 = (Ok (map (line_get attr) pss), s1)).
Proof.
  intros Hattr. cbv zeta. split.
  - rewrite getattr_selection_eq by exact Hattr. apply get_all_eq.
  - intros Hs Hnd v Hv pss Hpl Hcalls.
    destruct (setattr_selection_run attr v c w Hattr Hs Hnd Hv (length (line_clipboard c)) (le_n _))
      as [w' [Hcall [_ [_ [_ [_ [_ [Hfin _]]]]]]]].
    { intros i Hi. eexists. exact (Hcalls i Hi). }
    exists (c, redraw_world (ax c) w'). split; [exact (Hfin eq_refl) |].
    rewrite getattr_selection_eq by exact Hattr. rewrite get_all_eq, redraw_world_heap.
    assert (E : map (fun ln => line_get attr (props (heap w' ln))) (line_clipboard c) =
                map (line_get attr) pss).
    { apply (nth_ext _ _ (line_get attr (props (heap w' 0))) (line_get attr (fun _ => VNone)));
        [rewrite !length_map; lia |].
      intros i Hi. rewrite length_map in Hi.
      rewrite (map_nth (fun ln => line_get attr (props (heap w' ln)))), (map_nth (line_get attr)).
      f_equal. specialize (Hcall i Hi). rewrite (Hcalls i Hi) in Hcall.
      injection Hcall as Hp. symmetry. exact Hp. }
    rewrite E. destruct (line_clipboard c) as [| l0 r].
    + destruct pss; [reflexivity | discriminate Hpl].
    + rewrite Hs. reflexivity.
Qed.

Lemma getattr_selection_contract_witness :
  is_line_property "markevery"%string = true /\
  getattr_selection (L := raw_line2d) "markevery"%string (sel_all3, w_three) =
    (match line_clipboard sel_all3 with
     | [] => Ok []
     | _ => if has_accessors "markevery"%string
            then Ok (map (fun ln => props (heap w_three ln) "markevery"%string) (line_clipboard sel_all3))
            else Raise AttributeError
     end, (sel_all3, w_three)).
Proof.
  split; [reflexivity |].
  exact (proj1 (getattr_selection_contract (L := raw_line2d) "markevery"%string sel_all3 w_three
                  eq_refl)).
Defined.

(** ** What the selection methods add to the clipboard *)

Lemma add_all_eq (lns : list LineId) :
  forall (c : AxesLineSelector) (w : World),
  exists w',
    add_all lns (c, w) =
      (Ok tt, (set_line_clipboard
                 (fold_left (fun cb l => clip_add l cb) lns (line_clipboard c)) c, w')) /\
    (forall a, ax_lines w' a = ax_lines w a).
Proof.
  induction lns as [| ln r IH]; intros c w.
  - exists w. cbn [fold_left lines_at fst snd]. rewrite set_line_clipboard_id.
    split; reflexivity.
  - cbn [add_all fold_left]. destruct (_add_line_to_clipboard_eq ln c w) as [msg E].
    unfold bind. rewrite E.
    destruct (IH (set_line_clipboard (clip_add ln (line_clipboard c)) c)
                 (emit (EvPrint msg (Some ln)) w)) as [w' [Hl Hax]].
    exists w'. rewrite Hl. split; [reflexivity |]. intros a. rewrite Hax. reflexivity.
Qed.

Lemma fold_clip_add_NoDup (lns : list LineId) :
  NoDup lns -> forall cb,
  fold_left (fun cb l => clip_add l cb) lns cb = cb ++ filter (fun l => negb (mem l cb)) lns.
Proof.
  induction lns as [| ln r IH]; intros Hnd cb.
  - rewrite app_nil_r. reflexivity.
  - apply NoDup_cons_iff in Hnd as [Hln Hnd]. cbn [fold_left filter].
    rewrite IH by exact Hnd. unfold clip_add.
    destruct (mem ln cb) eqn:E; cbn [negb].
    + reflexivity.
    + rewrite <- app_assoc. cbn [app]. f_equal. f_equal.
      apply filter_ext_in. intros l Hl. unfold mem. rewrite existsb_app. cbn [existsb].
      destruct (Nat.eqb_spec l ln) as [-> | _]; [contradiction |].
      rewrite orb_false_r. reflexivity.
Qed.

Lemma select_by_inds_loop_eq (inds : list Z) :
  forall (c : AxesLineSelector) (w : World),
  exists w',
    select_by_inds_loop inds (c, w) =
      (if snd (lines_at (ax_lines w (ax c)) inds) then Ok tt else Raise IndexError,
       (set_line_clipboard
          (fold_left (fun cb l => clip_add l cb)
             (fst (lines_at (ax_lines w (ax c)) inds)) (line_clipboard c)) c, w')) /\
    (forall a, ax_lines w' a = ax_lines w a).
Proof.
  induction inds as [| ind r IH]; intros c w.
  - exists w. cbn [fold_left lines_at fst snd]. rewrite set_line_clipboard_id.
    split; reflexivity.
  - cbn [select_by_inds_loop lines_at]. unfold bind, get_lines, get_self, get_world, ret.
    simpl.
    destruct (py_index (ax_lines w (ax c)) ind) as [ln |] eqn:E.
    + destruct (_add_line_to_clipboard_eq ln c w) as [msg Ha]. rewrite Ha.
      destruct (IH (set_line_clipboard (clip_add ln (line_clipboard c)) c)
                   (emit (EvPrint msg (Some ln)) w)) as [w' [Hl Hax]].
      cbn [ax_lines emit axes ax line_clipboard set_line_clipboard] in Hl.
      exists w'. rewrite Hl. cbn [ax_lines emit axes ax line_clipboard set_line_clipboard].
      destruct (lines_at _ r) as [xs ok]. cbn [fst snd fold_left].
      split; [reflexivity |]. intros a. rewrite Hax. reflexivity.
    + exists w. split; [destruct c; reflexivity | reflexivity].
Qed.

(** X8: [select_lines_by_inds] with no index raises [ValueError] and changes
    nothing. Otherwise it appends [ax.lines[ind]] for each index in the
    order given (negative indices counting from the end), skipping lines
    already selected; at the first index outside [-n, n) it raises
    [IndexError], keeping the lines added before it. [ax.lines] are not
    changed. Stated for indices that reach distinct lines. *)
Theorem select_lines_by_inds_contract (inds : list Z) (c : AxesLineSelector) (w : World) :
  (inds = [] -> select_lines_by_inds inds (c, w) = (Raise ValueError, (c, w))) /\
  (inds <> [] ->
   let ls := ax_lines w (ax c) in
   NoDup (fst (lines_at ls inds)) ->
   exists w',
     select_lines_by_inds inds (c, w) =
       (if snd (lines_at ls inds) then Ok tt else Raise IndexError,
        (set_line_clipboard
           (line_clipboard c ++
            filter (fun l => negb (mem l (line_clipboard c))) (fst (lines_at ls inds))) c, w')) /\
     (forall a, ax_lines w' a = ax_lines w a)).
Proof.
  split.
  - intros ->. reflexivity.
  - intros Hne. cbv zeta. intros Hnd.
    destruct (select_by_inds_loop_eq inds c w) as [w' [Hl Hax]].
    exists w'. unfold select_lines_by_inds.
    destruct inds as [| z zs]; [contradiction |]. cbn [length Nat.ltb Nat.leb].
    rewrite Hl, fold_clip_add_NoDup by exact Hnd. split; [reflexivity | exact Hax].
Qed.

Lemma In_snd_filter_enumerate (P : nat * LineId -> bool) (j : nat) (ls : list LineId) (y : LineId) :
  In y (map snd (filter P (enumerate_from j ls))) -> In y ls.
Proof.
  revert j. induction ls as [| x r IH]; intros j H; [exact H |].
  cbn [enumerate_from filter] in H. destruct (P (j, x)); cbn [map In] in H.
  - destruct H as [<- | H]; [left; reflexivity | right; exact (IH _ H)].
  - right. exact (IH _ H).
Qed.

Lemma NoDup_snd_filter_enumerate (P : nat * LineId -> bool) (j : nat) (ls : list LineId) :
  NoDup ls -> NoDup (map snd (filter P (enumerate_from j ls))).
Proof.
  revert j. induction ls as [| x r IH]; intros j Hnd; [constructor |].
  apply NoDup_cons_iff in Hnd as [Hx Hnd].
  cbn [enumerate_from filter]. destruct (P (j, x)); cbn [map].
  - constructor; [| exact (IH _ Hnd)].
    intros H. apply Hx. exact (In_snd_filter_enumerate P (S j) r x H).
  - exact (IH _ Hnd).
Qed.

Lemma map_snd_enumerate_from (j : nat) (ls : list LineId) :
  map snd (enumerate_from j ls) = ls.
Proof. revert j. induction ls as [| x r IH]; intros j; cbn; [| rewrite IH]; reflexivity. Qed.

(** X9: on an axes whose lines are distinct objects, [select_all_lines]
    appends every line of [ax.lines] not yet selected, and
    [select_lines(sel_fn)] every line [ax.lines[i]] with [sel_fn(line, i)]
    not yet selected, in axes order; neither changes [ax.lines]. *)
Theorem select_all_and_select_lines (c : AxesLineSelector) (w : World) :
  NoDup (ax_lines w (ax c)) ->
  let ls := ax_lines w (ax c) in
  let cb := line_clipboard c in
  (exists w',
     select_all_lines (c, w) =
       (Ok tt, (set_line_clipboard (cb ++ filter (fun l => negb (mem l cb)) ls) c, w')) /\
     (forall a, ax_lines w' a = ax_lines w a)) /\
  (forall sel_fn,
   exists w',
     select_lines sel_fn (c, w) =
       (Ok tt, (set_line_clipboard
                  (cb ++ filter (fun l => negb (mem l cb))
                          (map snd (filter (fun p => sel_fn (snd p) (fst p)) (enumerate ls)))) c,
                w')) /\
     (forall a, ax_lines w' a = ax_lines w a)).
Proof.
  intros Hnd. cbv zeta. split.
  - destruct (add_all_eq (ax_lines w (ax c)) c w) as [w' [Hl Hax]].
    exists w'. unfold select_all_lines, bind, get_lines, get_self, get_world, ret.
    cbn -[add_all ax_lines]. rewrite Hl, fold_clip_add_NoDup by exact Hnd.
    split; [reflexivity | exact Hax].
  - intros sel_fn.
    set (lns := map snd (filter (fun p => sel_fn (snd p) (fst p)) (enumerate (ax_lines w (ax c))))).
    destruct (add_all_eq lns c w) as [w' [Hl Hax]].
    exists w'. unfold select_lines, bind, get_lines, get_self, get_world, ret.
    cbn -[add_all ax_lines enumerate]. fold lns. rewrite Hl, fold_clip_add_NoDup.
    + split; [reflexivity | exact Hax].
    + apply NoDup_snd_filter_enumerate, Hnd.
Qed.

Lemma select_all_and_select_lines_witness :
  NoDup (ax_lines w_three (ax sel_first)) /\
  exists w',
    select_all_lines (sel_first, w_three) =
      (Ok tt, (set_line_clipboard
                 (line_clipboard sel_first ++
                  filter (fun l => negb (mem l (line_clipboard sel_first)))
                         (ax_lines w_three (ax sel_first))) sel_first, w')) /\
    (forall a, ax_lines w' a = ax_lines w_three a).
Proof.
  assert (Hnd : NoDup (ax_lines w_three (ax sel_first)))
    by (cbn; repeat constructor; cbn; intuition discriminate).
  split; [exact Hnd |].
  exact (proj1 (select_all_and_select_lines sel_first w_three Hnd)).
Defined.

(** ** Indices [delete_lines_by_inds] does not match *)

Lemma map_nth_seq_id (ls : list LineId) :
  map (fun k => nth k ls 0) (seq 0 (length ls)) = ls.
Proof.
  apply (nth_ext _ _ 0 0); [rewrite length_map, length_seq; reflexivity |].
  intros i Hi. rewrite length_map, length_seq in Hi.
  rewrite (nth_indep _ 0 (nth 0 ls 0)) by (rewrite length_map, length_seq; exact Hi).
  rewrite (map_nth (fun k => nth k ls 0) _ 0), seq_nth by exact Hi. reflexivity.
Qed.

(** X10: [delete_lines_by_inds] compares each position [i] with the given
    indices as they are: indices below zero or at least [len(ax.lines)]
    (a Python-style [-1] included) match no position, so with only such
    indices no line is deleted, although the lines are still snapshotted. *)
Theorem delete_lines_by_inds_unmatched (c : AxesLineSelector) (w : World) (inds : list Z) :
  inds <> [] ->
  (forall i, In i inds -> (i < 0 \/ Z.of_nat (length (ax_lines w (ax c))) <= i)%Z) ->
  exists w',
    delete_lines_by_inds inds (c, w) =
      (Ok tt, (set_delete_buffer (snapshot (delete_buffer c) (ax_lines w (ax c))) c, w')) /\
    ax_lines w' (ax c) = ax_lines w (ax c).
Proof.
  intros Hne Hout.
  destruct (delete_lines_by_inds_ok c w inds Hne) as [w' [Hd Hk]].
  exists w'. split; [exact Hd |].
  rewrite Hk. unfold kept_positions.
  rewrite forallb_filter_id; [apply map_nth_seq_id |].
  apply forallb_forall. intros k Hk'. apply in_seq in Hk'.
  destruct (existsb (Z.eqb (Z.of_nat k)) inds) eqn:E; [| reflexivity].
  apply existsb_exists in E as [i [Hi Heq]]. apply Z.eqb_eq in Heq.
  specialize (Hout i Hi). lia.
Qed.

Lemma delete_lines_by_inds_unmatched_witness :
  [(-1)%Z] <> [] /\
  (forall i, In i [(-1)%Z] -> (i < 0 \/ Z.of_nat (length (ax_lines w_three (ax sel_empty))) <= i)%Z) /\
  exists w',
    delete_lines_by_inds [(-1)%Z] (sel_empty, w_three) =
      (Ok tt, (set_delete_buffer (snapshot (delete_buffer sel_empty)
                                    (ax_lines w_three (ax sel_empty))) sel_empty, w')) /\
    ax_lines w' (ax sel_empty) = ax_lines w_three (ax sel_empty).
Proof.
  assert (H : forall i, In i [(-1)%Z] ->
                (i < 0 \/ Z.of_nat (length (ax_lines w_three (ax sel_empty))) <= i)%Z)
    by (intros i [<- | []]; left; lia).
  split; [discriminate | split; [exact H |]].
  exact (delete_lines_by_inds_unmatched sel_empty w_three [(-1)%Z] ltac:(discriminate) H).
Defined.

(** ** Interactive modes *)

Lemma set_picker_heap (l : LineId) (p : Value) (w : World) (m : LineId) :
  heap (set_picker l p w) m =
    if Nat.eqb m l
    then mkLine2D (xdata (heap w l)) (ydata (heap w l))
           (fun n => if String.eqb n "picker" then p
                     else if String.eqb n (picker_field p) then p
                     else props (heap w l) n)
    else heap w m.
Proof.
  unfold set_picker, picker_field.
  destruct (Nat.eqb m l) eqn:E.
  - apply Nat.eqb_eq in E. subst m.
    destruct p; cbn [set_line_prop heap props xdata ydata]; rewrite Nat.eqb_refl; reflexivity.
  - destruct p; cbn [set_line_prop heap]; rewrite E; reflexivity.
Qed.

Lemma set_pickers_spec (p : Value) (ls : list LineId) :
  forall w,
    let w' := set_pickers ls p w in
    (forall m, In m ls ->
       props (heap w' m) "picker" = p /\ props (heap w' m) (picker_field p) = p) /\
    (forall m, ~ In m ls -> heap w' m = heap w m) /\
    (forall m n, n <> "picker"%string -> n <> picker_field p ->
       props (heap w' m) n = props (heap w m) n) /\
    (forall m, xdata (heap w' m) = xdata (heap w m) /\ ydata (heap w' m) = ydata (heap w m)) /\
    axes w' = axes w /\ next_id w' = next_id w /\ log w' = log w.
Proof.
  assert (Hw : forall l w, axes (set_picker l p w) = axes w /\
                 next_id (set_picker l p w) = next_id w /\ log (set_picker l p w) = log w)
    by (intros l w; unfold set_picker; destruct p; repeat split).
  induction ls as [| ln r IH]; intros w; cbv zeta.
  - cbn [set_pickers]. repeat split; intros; try contradiction; reflexivity.
  - cbn [set_pickers].
    destruct (IH (set_picker ln p w)) as [Hin [Hout [Hoth [Hdat [Hax [Hid Hlog]]]]]].
    destruct (Hw ln w) as [Hax1 [Hid1 Hlog1]].
    refine (conj _ (conj _ (conj _ (conj _ (conj _ (conj _ _)))))).
    + intros m [E | Hm].
      * subst m. destruct (in_dec Nat.eq_dec ln r) as [Hr | Hr]; [apply Hin, Hr |].
        rewrite Hout by exact Hr. rewrite set_picker_heap, Nat.eqb_refl. cbn [props].
        rewrite String.eqb_refl. split; [reflexivity |].
        destruct (String.eqb_spec (picker_field p) "picker"); [reflexivity |].
        rewrite String.eqb_refl. reflexivity.
      * apply Hin, Hm.
    + intros m Hm. rewrite Hout by (intros H; apply Hm; right; exact H).
      rewrite set_picker_heap. destruct (Nat.eqb_spec m ln); [| reflexivity].
      subst. exfalso. apply Hm. left. reflexivity.
    + intros m n Hn Hf. rewrite (Hoth m n Hn Hf), set_picker_heap.
      destruct (Nat.eqb_spec m ln); [subst; cbn [props] | reflexivity].
      destruct (String.eqb_spec n "picker"); [contradiction |].
      destruct (String.eqb_spec n (picker_field p)); [contradiction | reflexivity].
    + intros m. rewrite (proj1 (Hdat m)), (proj2 (Hdat m)), set_picker_heap.
      destruct (Nat.eqb_spec m ln); [subst |]; split; reflexivity.
    + rewrite Hax, Hax1. reflexivity.
    + rewrite Hid, Hid1. reflexivity.
    + rewrite Hlog, Hlog1. reflexivity.
Qed.

Lemma connect_pick_eq (h : PickHandler) (c : AxesLineSelector) (w : World) (cv : Canvas) :
  connect_pick h (c, w, cv) =
    (set_cid (Some (next_cid cv)) c,
     set_pickers (ax_lines w (ax c)) (picker_arg c) w,
     mkCanvas (callbacks (snd (_disconnect_current_callback (c, w, cv))) ++
               [(next_cid cv, h)]) (S (next_cid cv))).
Proof.
  unfold connect_pick, _disconnect_current_callback.
  destruct (cid c); reflexivity.
Qed.

(** X11: [interactive_select] and [interactive_delete] first drop the
    callback this selector registered before (if any), then make every line
    currently on [self.ax] pickable with [self.picker_arg], through
    [Line2D.set_picker]: it sets [_picker], and [pickradius] (or [_contains]
    for a callable) to that value; no other line and no other field is
    touched, and no line list changes. They then register their own pick
    callback under a fresh id, which becomes [self.cid]. *)
Theorem interactive_mode_connects (h : PickHandler) (f : IState -> IState)
    (c : AxesLineSelector) (w : World) (cv : Canvas) :
  (h, f) = (SelectHandler, interactive_select) \/ (h, f) = (DeleteHandler, interactive_delete) ->
  let '(c', w', cv') := f (c, w, cv) in
  c' = set_cid (Some (next_cid cv)) c /\
  callbacks cv' =
    (match cid c with
     | Some k => filter (fun p => negb (Nat.eqb (fst p) k)) (callbacks cv)
     | None => callbacks cv
     end) ++ [(next_cid cv, h)] /\
  next_cid cv' = S (next_cid cv) /\
  (forall a, ax_lines w' a = ax_lines w a) /\
  (forall ln, In ln (ax_lines w (ax c)) ->
     props (heap w' ln) "picker" = picker_arg c /\
     props (heap w' ln) (picker_field (picker_arg c)) = picker_arg c) /\
  (forall ln, ~ In ln (ax_lines w (ax c)) -> heap w' ln = heap w ln) /\
  (forall ln n, n <> "picker"%string -> n <> picker_field (picker_arg c) ->
     props (heap w' ln) n = props (heap w ln) n).
Proof.
  intros Hf.
  assert (Hfe : f (c, w, cv) = connect_pick h (c, w, cv))
    by (destruct Hf as [E | E]; injection E as -> ->; reflexivity).
  rewrite Hfe, connect_pick_eq.
  destruct (set_pickers_spec (picker_arg c) (ax_lines w (ax c)) w)
    as [Hin [Hout [Hoth [_ [Hax _]]]]].
  split; [reflexivity |]. split.
  { cbn [callbacks]. f_equal. unfold _disconnect_current_callback.
    destruct (cid c); reflexivity. }
  split; [reflexivity |]. split.
  { intros a. unfold ax_lines in *. rewrite Hax. reflexivity. }
  split; [exact Hin |]. split; [exact Hout | exact Hoth].
Qed.

Lemma interactive_mode_connects_witness :
  ((DeleteHandler, interactive_delete) = (SelectHandler, interactive_select) \/
   (DeleteHandler, interactive_delete) = (DeleteHandler, interactive_delete)) /\
  let '(c', w', cv') := interactive_delete (sel_empty, w_three, mkCanvas [] 0) in
  c' = set_cid (Some 0) sel_empty /\
  callbacks cv' =
    (match cid sel_empty with
     | Some k => filter (fun p => negb (Nat.eqb (fst p) k)) []
     | None => []
     end) ++ [(0, DeleteHandler)] /\
  next_cid cv' = 1 /\
  (forall a, ax_lines w' a = ax_lines w_three a) /\
  (forall ln, In ln (ax_lines w_three (ax sel_empty)) ->
     props (heap w' ln) "picker" = picker_arg sel_empty /\
     props (heap w' ln) (picker_field (picker_arg sel_empty)) = picker_arg sel_empty) /\
  (forall ln, ~ In ln (ax_lines w_three (ax sel_empty)) -> heap w' ln = heap w_three ln) /\
  (forall ln n, n <> "picker"%string -> n <> picker_field (picker_arg sel_empty) ->
     props (heap w' ln) n = props (heap w_three ln) n).
Proof.
  assert (H : (DeleteHandler, interactive_delete) = (SelectHandler, interactive_select) \/
              (DeleteHandler, interactive_delete) = (DeleteHandler, interactive_delete))
    by (right; reflexivity).
  split; [exact H |].
  exact (interactive_mode_connects DeleteHandler interactive_delete sel_empty w_three
           (mkCanvas [] 0) H).
Defined.

Lemma filter_fresh_cid (cbs : list (nat * PickHandler)) (n : nat) :
  Forall (fun p => fst p < n) cbs ->
  filter (fun p => negb (Nat.eqb (fst p) n)) cbs = cbs.
Proof.
  intros H. apply forallb_filter_id, forallb_forall. intros p Hp.
  rewrite Forall_forall in H. specialize (H p Hp).
  destruct (Nat.eqb_spec (fst p) n); [lia | reflexivity].
Qed.

(** X12: on a canvas whose ids were all handed out before (each below
    [next_cid]), switching an unconnected selector from selection mode to
    deletion mode leaves exactly one callback of it registered, the
    deletion one; [disable_interactive] then removes it, restoring the
    canvas's callbacks and the selector, and leaves the lines (pickable)
    as they were. Calling [disable_interactive] twice is the same as once. *)
Theorem interactive_switch_then_disable (c : AxesLineSelector) (w : World) (cv : Canvas) :
  cid c = None -> Forall (fun p => fst p < next_cid cv) (callbacks cv) ->
  (let '(c2, w2, cv2) := interactive_delete (interactive_select (c, w, cv)) in
   cid c2 = Some (S (next_cid cv)) /\
   callbacks cv2 = callbacks cv ++ [(S (next_cid cv), DeleteHandler)] /\
   let '(c3, w3, cv3) := disable_interactive (c2, w2, cv2) in
   c3 = c /\ w3 = w2 /\ callbacks cv3 = callbacks cv) /\
  (forall s, disable_interactive (disable_interactive s) = disable_interactive s).
Proof.
  intros Hc Hfresh. split.
  - unfold interactive_select, interactive_delete. rewrite connect_pick_eq.
    unfold _disconnect_current_callback at 1. rewrite Hc. cbn [snd].
    rewrite connect_pick_eq. unfold _disconnect_current_callback. cbn [cid set_cid].
    cbn [snd callbacks mpl_disconnect next_cid].
    rewrite filter_app, filter_fresh_cid by exact Hfresh.
    cbn [filter fst]. rewrite Nat.eqb_refl. cbn [negb].
    unfold disable_interactive, _disconnect_current_callback. cbn [cid set_cid].
    cbn [callbacks mpl_disconnect]. rewrite app_nil_r.
    repeat split.
    + destruct c; cbn in Hc |- *. subst. reflexivity.
    + rewrite filter_app, filter_fresh_cid by (apply Forall_impl with (2 := Hfresh); intros p Hp; lia).
      cbn [filter fst]. destruct (Nat.eqb_spec (S (next_cid cv)) (S (next_cid cv))) as [_ | E];
        [| contradiction]. cbn [negb]. apply app_nil_r.
  - intros [[c0 w0] cv0]. unfold disable_interactive, _disconnect_current_callback.
    destruct (cid c0) eqn:E; cbn; rewrite ?E; reflexivity.
Qed.

Lemma interactive_switch_then_disable_witness :
  cid sel_empty = None /\
  Forall (fun p => fst p < next_cid (mkCanvas [(0, SelectHandler)] 1))
         (callbacks (mkCanvas [(0, SelectHandler)] 1)) /\
  (let '(c2, w2, cv2) :=
     interactive_delete (interactive_select (sel_empty, w_three, mkCanvas [(0, SelectHandler)] 1)) in
   cid c2 = Some 2 /\
   callbacks cv2 = [(0, SelectHandler)] ++ [(2, DeleteHandler)] /\
   let '(c3, w3, cv3) := disable_interactive (c2, w2, cv2) in
   c3 = sel_empty /\ w3 = w2 /\ callbacks cv3 = [(0, SelectHandler)]) /\
  (forall s, disable_interactive (disable_interactive s) = disable_interactive s).
Proof.
  assert (H : Forall (fun p => fst p < next_cid (mkCanvas [(0, SelectHandler)] 1))
                     (callbacks (mkCanvas [(0, SelectHandler)] 1)))
    by (repeat constructor).
  split; [reflexivity | split; [exact H |]].
  exact (interactive_switch_then_disable sel_empty w_three
           (mkCanvas [(0, SelectHandler)] 1) eq_refl H).
Defined.

(** ** Which orders [reorder_lines] accepts, and where lines go *)












